(** * chat_export.py: extraction, normalisation and rendering of chat sessions

    A shallow embedding of [ChatExporter] and [main] of chat_export.py.
    The two copies of the script (English and Chinese) run the same
    statements and differ in their display strings only; the display
    strings are collected in a [Strings] table, one per copy.

    Python values are modelled as follows:
    - a [str] is the list of its Unicode code points;
    - a value decoded by [json.loads] is a [json] tree, objects keeping the
      insertion order of their keys as Python dicts do;
    - a statement that may raise returns an [outcome];
    - [print] calls are not modelled: they change no value of the program.
      The one that follows the append of a message prints its role, and
      can only raise for a role that is a str the terminal cannot encode,
      which none of the known roles is. *)

From Stdlib Require Import ZArith NArith List String Ascii Bool Lia DecimalString.
From Stdlib Require Import Floats.SpecFloat.
From stdpp Require Import base list gmap sets.

#[local] Set Warnings "-register-all,-clear-no-such-hyp".

Local Open Scope N_scope.
Local Open Scope list_scope.

(** ** Python strings *)

Abbreviation char := N (only parsing).
Abbreviation str := (list N) (only parsing).

(** The code points of an ASCII literal. *)
Definition py (s : string) : str :=
  List.map N_of_ascii (list_ascii_of_string s).

Definition dq : str := [34].
Definition nl : str := [10].
Definition spaces (n : nat) : str := repeat 32 n.

(** [a == b] on strings *)
Fixpoint str_eqb (a b : str) : bool :=
  match a, b with
  | [], [] => true
  | x :: a', y :: b' => (x =? y) && str_eqb a' b'
  | _, _ => false
  end.

(** [str.isspace] on one code point: the code points CPython classifies as
    whitespace, which are the ones [str.strip()] removes. *)
Definition isspace (c : char) : bool :=
  ((9 <=? c) && (c <=? 13)) || ((28 <=? c) && (c <=? 32))
  || (c =? 133) || (c =? 160) || (c =? 5760)
  || ((8192 <=? c) && (c <=? 8202))
  || (c =? 8232) || (c =? 8233) || (c =? 8239) || (c =? 8287) || (c =? 12288).

Fixpoint lstrip (s : str) : str :=
  match s with
  | c :: s' => if isspace c then lstrip s' else s
  | [] => []
  end.

Definition rstrip (s : str) : str := rev (lstrip (rev s)).

(** [s.strip()] *)
Definition strip (s : str) : str := rstrip (lstrip s).

(** [s.startswith(p)] *)
Fixpoint startswith (s p : str) : bool :=
  match p, s with
  | [], _ => true
  | a :: p', b :: s' => (a =? b) && startswith s' p'
  | _ :: _, [] => false
  end.

(** [sub in s] on strings *)
Fixpoint contains (s sub : str) : bool :=
  startswith s sub ||
  match s with
  | [] => false
  | _ :: s' => contains s' sub
  end.

(** [s.replace(old, new)] for a one-character [old] *)
Definition replace (old : char) (new : str) (s : str) : str :=
  flat_map (fun c => if c =? old then new else [c]) s.

(** [s.split(sep)] for a one-character [sep]: never an empty list *)
Fixpoint split (sep : char) (s : str) : list str :=
  match s with
  | [] => [[]]
  | c :: s' =>
      if c =? sep then [] :: split sep s'
      else match split sep s' with
           | l :: ls => (c :: l) :: ls
           | [] => [[c]]
           end
  end.

(** [sep.join(parts)] *)
Fixpoint join (sep : str) (parts : list str) : str :=
  match parts with
  | [] => []
  | [p] => p
  | p :: ps => p ++ sep ++ join sep ps
  end.

(** The decimal numeral of an integer, as [str(n)] and [f"{n}"] print it. *)
Definition str_of_Z (z : Z) : str := py (NilZero.string_of_int (Z.to_int z)).
Definition str_of_nat (n : nat) : str := str_of_Z (Z.of_nat n).

(** ** Results of statements that may raise *)

Inductive outcome (A : Type) : Type :=
| Returns (a : A)
| Raises (exc : str).
Arguments Returns {A} a.
Arguments Raises {A} exc.

#[global] Instance outcome_ret : MRet outcome := fun A a => Returns a.
#[global] Instance outcome_bind : MBind outcome := fun A B k m =>
  match m with
  | Returns a => k a
  | Raises e => Raises e
  end.

(** ** Values decoded by [json.loads] *)

Inductive json : Type :=
| JNull
| JBool (b : bool)
| JInt (z : Z)
| JFloat (f : spec_float)
| JStr (s : str)
| JArr (items : list json)
| JObj (fields : list (str * json)).

(** Truth value of a Python object. *)
Definition truthy (v : json) : bool :=
  match v with
  | JNull => false
  | JBool b => b
  | JInt z => negb (z =? 0)%Z
  | JFloat (S754_zero _) => false
  | JFloat _ => true
  | JStr s => negb (str_eqb s [])
  | JArr items => match items with [] => false | _ => true end
  | JObj fields => match fields with [] => false | _ => true end
  end.

(** [a or b] *)
Definition py_or (a b : json) : json := if truthy a then a else b.

(** [d.get(k, default)] *)
Fixpoint get_default (d : list (str * json)) (k : str) (default : json) : json :=
  match d with
  | [] => default
  | (k', v) :: d' => if str_eqb k' k then v else get_default d' k default
  end.

(** [d.get(k)] *)
Definition get (d : list (str * json)) (k : str) : json := get_default d k JNull.

(** [f == z] for a float [f] and an int [z]: exact comparison of the values. *)
Definition float_eq_Z (f : spec_float) (z : Z) : bool :=
  match f with
  | S754_zero _ => (z =? 0)%Z
  | S754_finite sgn m e =>
      let v := (if sgn then Z.neg m else Z.pos m) in
      if (0 <=? e)%Z then (v * 2 ^ e =? z)%Z else (v =? z * 2 ^ (- e))%Z
  | _ => false
  end.

(** [v == s] for a string literal [s] *)
Definition eq_str (v : json) (s : str) : bool :=
  match v with
  | JStr t => str_eqb t s
  | _ => false
  end.

(** [v == z] for an int literal [z]: [True == 1] and [1.0 == 1] hold in Python. *)
Definition eq_int (v : json) (z : Z) : bool :=
  match v with
  | JInt n => (n =? z)%Z
  | JBool b => ((if b then 1 else 0) =? z)%Z
  | JFloat f => float_eq_Z f z
  | _ => false
  end.

(** [role in ["1", 1, "user"]] and [role in ["2", 2, "assistant"]] *)
Definition in_user_roles (role : json) : bool :=
  eq_str role (py "1") || eq_int role 1 || eq_str role (py "user").

Definition in_assistant_roles (role : json) : bool :=
  eq_str role (py "2") || eq_int role 2 || eq_str role (py "assistant").

(** ** Built-ins of the Python runtime that the script calls

    These are functions of the interpreter and of its standard library, not
    of the script: what the script does is stated for whatever they return. *)

Class Builtins := {
  (** [repr(x)] of a float *)
  float_repr : spec_float -> str;
  (** [str.isprintable] on one code point above U+007F *)
  isprintable : char -> bool;
  (** [str.isalnum] on one code point *)
  isalnum : char -> bool;
  (** [json.loads(text)] *)
  json_loads : str -> outcome json;
  (** [data.decode('utf-8')] on the bytes of a BLOB *)
  decode_utf8 : list N -> outcome str;
}.

(** ** [repr] and [str] of decoded values *)

Definition hex_digit (n : N) : char :=
  if n <? 10 then 48 + n else 87 + n.

(** [width] lower-case hexadecimal digits of [n], most significant first *)
Fixpoint hex (width : nat) (n : N) : str :=
  match width with
  | O => []
  | S w => hex w (n / 16) ++ [hex_digit (n mod 16)]
  end.

Section Repr.
Context `{Builtins}.

Definition repr_char (quote : char) (c : char) : str :=
  if (c =? quote) || (c =? 92) then [92; c]
  else if c =? 9 then py "\t"
  else if c =? 10 then py "\n"
  else if c =? 13 then py "\r"
  else if (c <? 32) || (c =? 127) then py "\x" ++ hex 2 c
  else if c <? 127 then [c]
  else if isprintable c then [c]
  else if c <=? 255 then py "\x" ++ hex 2 c
  else if c <=? 65535 then py "\u" ++ hex 4 c
  else py "\U" ++ hex 8 c.

(** [repr(s)] of a str: double quotes only when [s] holds a single quote
    and no double quote. *)
Definition repr_str (s : str) : str :=
  let quote : char :=
    if existsb (N.eqb 39) s && negb (existsb (N.eqb 34) s) then 34 else 39 in
  [quote] ++ flat_map (repr_char quote) s ++ [quote].

Fixpoint repr (v : json) : str :=
  match v with
  | JNull => py "None"
  | JBool b => if b then py "True" else py "False"
  | JInt z => str_of_Z z
  | JFloat f => float_repr f
  | JStr s => repr_str s
  | JArr items => py "[" ++ join (py ", ") (List.map repr items) ++ py "]"
  | JObj fields =>
      py "{" ++
      join (py ", ")
        (List.map (fun kv => repr_str (fst kv) ++ py ": " ++ repr (snd kv)) fields)
      ++ py "}"
  end.

(** [str(v)], which is also what [f"{v}"] inserts *)
Definition py_str (v : json) : str :=
  match v with
  | JStr s => s
  | _ => repr v
  end.
End Repr.

(** ** Display strings of the two copies of the script *)

Record Strings := {
  (** [<html lang="..">] of HTML_TEMPLATE *)
  lang : str;
  (** default of [data.get('name', ..)] *)
  unnamed_session : str;
  (** the content given to a user message that only carries an attachment *)
  attachment_placeholder : str;
  (** header of the leading block of create_html_content, of the count *)
  fmt_total_sessions : str -> str;
  (** [stats] of a session in mode current, of chat_count *)
  fmt_conversations : str -> str;
  (** [stats] without its brackets in the summary modes, of user_questions *)
  fmt_questions : str -> str;
  (** header of the leading block of export_summary *)
  fmt_total_summary : str -> str -> str;
  (** page titles *)
  fmt_title_chat : str -> str;
  title_all : str;
  title_summary : str;
  fmt_title_questions : str -> str;
  (** file name of export_summary before the timestamp *)
  summary_file_prefix : str;
}.

(** The strings of the English copy. *)
Definition en_strings : Strings := {|
  lang := py "en";
  unnamed_session := py "Unnamed Session";
  attachment_placeholder := py "(User inserted an attachment" ++ [128206] ++ py ")";
  fmt_total_sessions := fun n => py "Total: " ++ n ++ py " chat sessions";
  fmt_conversations := fun n => py "Total " ++ n ++ py " conversations";
  fmt_questions := fun n => py "Total " ++ n ++ py " user questions";
  fmt_total_summary := fun n m => py "Total: " ++ n ++ py " chat sessions, " ++ m ++ py " user questions";
  fmt_title_chat := fun title => title ++ py " - Chat History";
  title_all := py "All Chat History";
  title_summary := py "User Questions Summary";
  fmt_title_questions := fun title => title ++ py " - Questions Summary";
  summary_file_prefix := py "All questions ";
|}.

(** The strings of the Chinese copy, written as code points. *)
Definition zh_strings : Strings := {|
  lang := py "zh";
  unnamed_session := [26410; 21629; 21517; 20250; 35805];
  attachment_placeholder := py "(" ++ [29992; 25143; 25554; 20837; 20102; 38468; 20214; 128206] ++ py ")";
  fmt_total_sessions := fun n => [24635; 35745; 65306] ++ n ++ [32452; 32842; 22825; 35760; 24405];
  fmt_conversations := fun n => [24635; 35745] ++ n ++ [26465; 32842; 22825; 23545; 35805];
  fmt_questions := fun n => [24635; 35745] ++ n ++ [26465; 29992; 25143; 25552; 38382];
  fmt_total_summary := fun n m => [24635; 35745; 65306] ++ n ++ [32452; 32842; 22825; 35760; 24405; 65292; 20849] ++ m ++ [26465; 29992; 25143; 25552; 38382];
  fmt_title_chat := fun title => title ++ (py " - " ++ [32842; 22825; 35760; 24405]);
  title_all := [25152; 26377; 32842; 22825; 35760; 24405];
  title_summary := [29992; 25143; 38382; 39064; 27719; 24635];
  fmt_title_questions := fun title => title ++ (py " - " ++ [38382; 39064; 27719; 24635]);
  summary_file_prefix := py "questions ";
|}.

(** The copy of the script that runs. *)
Inductive Locale := en | zh.

Definition strings (L : Locale) : Strings :=
  match L with
  | en => en_strings
  | zh => zh_strings
  end.

Coercion strings : Locale >-> Strings.

(** ** HTML_TEMPLATE

    [HTML_TEMPLATE.format(title=.., content=..)]: the lines of the template
    with the two fields filled in and the doubled braces of the style sheet
    printed once. *)
Definition HTML_TEMPLATE_format (L : Locale) (title content : str) : str :=
  join nl
    [
      py "<!DOCTYPE html>";
      py "<html lang=" ++ dq ++ lang L ++ dq ++ py ">";
      py "<head>";
      py "    <meta charset=" ++ dq ++ py "UTF-8" ++ dq ++ py ">";
      py "    <meta name=" ++ dq ++ py "viewport" ++ dq ++ py " content=" ++ dq ++ py "width=device-width, initial-scale=1.0" ++ dq ++ py ">";
      py "    <title>" ++ title ++ py "</title>";
      py "    <style>";
      py "        body {";
      py "            font-family: -apple-system, BlinkMacSystemFont, 'Segoe UI', Roboto, Arial, sans-serif;";
      py "            line-height: 1.6;";
      py "            max-width: 1200px;";
      py "            margin: 0 auto;";
      py "            padding: 20px;";
      py "            background: #f5f5f5;";
      py "        }";
      py "        .chat-container {";
      py "            background: white;";
      py "            border-radius: 8px;";
      py "            padding: 20px;";
      py "            margin-bottom: 20px;";
      py "            box-shadow: 0 2px 4px rgba(0,0,0,0.1);";
      py "        }";
      py "        .chat-session {";
      py "            margin-bottom: 30px;";
      py "            padding: 15px;";
      py "            border: 1px solid #ddd;";
      py "            border-radius: 8px;";
      py "            background: white;";
      py "        }";
      py "        .chat-session-header {";
      py "            font-weight: bold;";
      py "            margin-bottom: 10px;";
      py "            padding-bottom: 5px;";
      py "            border-bottom: 1px solid #eee;";
      py "            color: #2196F3;";
      py "        }";
      py "        .message {";
      py "            margin: 10px 0;";
      py "            padding: 15px;";
      py "            border-radius: 8px;";
      py "            white-space: pre-wrap;";
      py "        }";
      py "        .user-message {";
      py "            background: #e3f2fd;";
      py "            margin-right: 20%;";
      py "        }";
      py "        .assistant-message {";
      py "            background: #f5f5f5;";
      py "            margin-left: 20%;";
      py "        }";
      py "        .summary-message {";
      py "            background: #fff3e0;";
      py "            font-size: 1.1em;";
      py "            text-align: center;";
      py "            margin: 10px 0;";
      py "            line-height: 2;";
      py "        }";
      py "        pre {";
      py "            background: #2b2b2b;";
      py "            color: #fff;";
      py "            padding: 15px;";
      py "            border-radius: 5px;";
      py "            overflow-x: auto;";
      py "            margin: 10px 0;";
      py "        }";
      py "        code {";
      py "            font-family: 'Courier New', Courier, monospace;";
      py "        }";
      py "        h1 {";
      py "            color: #2196F3;";
      py "            text-align: center;";
      py "            margin-bottom: 30px;";
      py "        }";
      py "    </style>";
      py "</head>";
      py "<body>";
      py "    <h1>" ++ title ++ py "</h1>";
      py "    <div class=" ++ dq ++ py "chat-container" ++ dq ++ py ">";
      py "        " ++ content;
      py "    </div>";
      py "</body>";
      py "</html>"
    ].

(** ** process_code_blocks *)

Definition fence : str := py "```".
Definition pre_open : str := py "<pre><code>".
Definition pre_close : str := py "</code></pre>".

(** The loop variables of process_code_blocks. *)
Record code_scan := {
  processed_lines : list str;
  in_code_block : bool;
  code_block : list str;
}.

(** [f"<pre><code>{''.join(code_block)}</code></pre>"] *)
Definition pre_block (code : list str) : str :=
  pre_open ++ concat code ++ pre_close.

(** One iteration of [for line in lines]. *)
Definition scan_line (st : code_scan) (line : str) : code_scan :=
  if startswith (strip line) fence then
    if in_code_block st then
      {| processed_lines := processed_lines st ++ [pre_block (code_block st)];
         in_code_block := false;
         code_block := [] |}
    else
      {| processed_lines := processed_lines st;
         in_code_block := true;
         code_block := code_block st |}
  else if in_code_block st then
    {| processed_lines := processed_lines st;
       in_code_block := true;
       code_block := code_block st ++ [line ++ nl] |}
  else
    {| processed_lines := processed_lines st ++ [line];
       in_code_block := false;
       code_block := code_block st |}.

(** [text.replace("&", "&amp;").replace("<", "&lt;").replace(">", "&gt;")] *)
Definition escape_html (text : str) : str :=
  replace 62 (py "&gt;") (replace 60 (py "&lt;") (replace 38 (py "&amp;") text)).

Definition process_code_blocks (text : str) : str :=
  match text with
  | [] => []
  | _ =>
      let lines := split 10 (escape_html text) in
      let st := fold_left scan_line lines
                  {| processed_lines := []; in_code_block := false; code_block := [] |} in
      let processed :=
        if in_code_block st && match code_block st with [] => false | _ => true end
        then processed_lines st ++ [pre_block (code_block st)]
        else processed_lines st in
      join (py "<br>") processed
  end.

(** [s.endswith(p)] *)
Definition endswith (s p : str) : bool := startswith (rev s) (rev p).

(** [s.count(sub)] read with overlaps: the number of places where [sub]
    starts in [s]. *)
Fixpoint count_starts (s sub : str) : nat :=
  ((if startswith s sub then 1 else 0) +
   match s with
   | [] => 0
   | _ :: s' => count_starts s' sub
   end)%nat.

(** [s] is one preformatted block and nothing else. *)
Definition single_pre_block (s : str) : bool :=
  startswith s pre_open && endswith s pre_close
  && Nat.eqb (count_starts s pre_open) 1.

(** ** Sessions and messages *)

(** The dict appended to [session['messages']]; its content is a str, because
    a content that is true and not a str has no [strip] and raises before. *)
Record message := {
  role : json;
  content : str;
}.

Record session := {
  composerId : json;
  version : json;
  title : json;
  messages : list message;
  user_questions : nat;
  chat_count : nat;
}.

(** What [for x in v] runs through, and the TypeError of a value that is not
    iterable ([len(v)] raises for the same values). *)
Definition iterate (v : json) : outcome (list json) :=
  match v with
  | JArr items => Returns items
  | JStr s => Returns (List.map (fun c => JStr [c]) s)
  | JObj fields => Returns (List.map (fun kv => JStr (fst kv)) fields)
  | _ => Raises (py "TypeError")
  end.

(** A loop whose body may raise: the first exception ends it. *)
Fixpoint for_each {S A} (body : S -> A -> outcome S) (items : list A) (st : S)
  : outcome S :=
  match items with
  | [] => Returns st
  | x :: items' => st' ← body st x; for_each body items' st'
  end.

(** Values of a column of an SQLite row, as the sqlite3 module returns them. *)
Inductive sql_value :=
| SqlNull
| SqlInt (z : Z)
| SqlReal (f : spec_float)
| SqlText (s : str)
| SqlBlob (bytes : list N).

(** ** read_chat_history: one message, one record *)

Section Normalizer.
Context `{Builtins} (L : Locale).

(** [msg.get('role') or msg.get('type') or
    ('user' if msg.get('isUser') else 'assistant')] *)
Definition resolve_role (msg : list (str * json)) : json :=
  py_or (get msg (py "role"))
    (py_or (get msg (py "type"))
       (if truthy (get msg (py "isUser")) then JStr (py "user")
        else JStr (py "assistant"))).

(** [msg.get('content') or msg.get('text') or msg.get('message', '')] *)
Definition resolve_content (msg : list (str * json)) : json :=
  py_or (get msg (py "content"))
    (py_or (get msg (py "text")) (get_default msg (py "message") (JStr []))).

(** The truth value of [has_attachment]. *)
Definition has_attachment (msg : list (str * json)) : bool :=
  truthy (get msg (py "attachments"))
  || truthy (get msg (py "files"))
  || truthy (get msg (py "images"))
  || truthy (get msg (py "additional_data"))
  || truthy (get msg (py "terminal_selections"))
  || truthy (get msg (py "terminalSelections"))
  || contains (py_str (JObj msg)) (py "terminal")
  || contains (py_str (JObj msg)) (py "additional_data")
  || contains (py_str (JObj msg)) (py "attachments")
  || contains (py_str (JObj msg)) (py "file_contents")
  || contains (py_str (JObj msg)) (py "attached_files").

(** [not content or content.strip() == ''] *)
Definition is_blank (content : json) : outcome bool :=
  if negb (truthy content) then Returns true
  else match content with
       | JStr s => Returns (str_eqb (strip s) [])
       | _ => Raises (py "AttributeError")
       end.

(** [current_role == r]; the cursor starts as [None] *)
Definition cursor_is (current_role : option str) (r : str) : bool :=
  match current_role with
  | Some c => str_eqb c r
  | None => false
  end.

(** The statements under [if content:]: the message is appended and the
    counters and the last-role cursor are updated. *)
Definition keep_message (st : session * option str) (role : json) (content : str)
  : session * option str :=
  let '(s, current_role) := st in
  let msgs := messages s ++ [{| role := role; content := content |}] in
  if in_user_roles role then
    ({| composerId := composerId s; version := version s; title := title s;
        messages := msgs;
        user_questions := user_questions s + 1;
        chat_count := chat_count s + 1 |},
     Some (py "user"))
  else if in_assistant_roles role then
    ({| composerId := composerId s; version := version s; title := title s;
        messages := msgs;
        user_questions := user_questions s;
        chat_count :=
          if cursor_is current_role (py "user")
          then chat_count s + 1 else chat_count s |},
     Some (py "assistant"))
  else
    ({| composerId := composerId s; version := version s; title := title s;
        messages := msgs;
        user_questions := user_questions s;
        chat_count := chat_count s |},
     current_role).

(** The content after the attachment rule, given the value of the
    blank test. *)
Definition final_content (msg : list (str * json)) (blank : bool) : json :=
  if blank && has_attachment msg && in_user_roles (resolve_role msg)
  then JStr (attachment_placeholder L)
  else resolve_content msg.

(** The body of [for msg in conversation]. Past the blank test a content
    that is true is a str, so the last [match] is the test [if content:]. *)
Definition process_msg (st : session * option str) (msg : json)
  : outcome (session * option str) :=
  match msg with
  | JObj d =>
      let role := resolve_role d in
      if truthy role then
        blank ← is_blank (resolve_content d);
        match final_content d blank with
        | JStr (c :: content') => Returns (keep_message st role (c :: content'))
        | _ => Returns st
        end
      else Returns st
  | _ => Returns st
  end.

(** [value.decode('utf-8')] for bytes, then [json.loads]; [json.loads]
    raises TypeError on a value that is neither str nor bytes. *)
Definition decode_record (value : sql_value) : outcome json :=
  match value with
  | SqlBlob bytes => text ← decode_utf8 bytes; json_loads text
  | SqlText text => json_loads text
  | _ => Raises (py "TypeError")
  end.

(** The session a decoded record gives, before the test on its messages. *)
Definition build_session (data : json) : outcome session :=
  match data with
  | JObj d =>
      let conversation := get_default d (py "conversation") (JArr []) in
      msgs ← iterate conversation;
      let title :=
        py_or (get d (py "title")) (get_default d (py "name") (JStr (unnamed_session L))) in
      let session0 :=
        {| composerId := get_default d (py "composerId") (JStr []);
           version := get_default d (py "_v") (JInt 0);
           title := title;
           messages := [];
           user_questions := 0;
           chat_count := 0 |} in
      st ← for_each process_msg msgs (session0, None);
      Returns (fst st)
  | _ => Raises (py "AttributeError")
  end.

(** The body of [for key, value in composer_records] inside its [try]:
    the session to append, if any. *)
Definition process_record (value : sql_value) : outcome (option session) :=
  data ← decode_record value;
  s ← build_session data;
  Returns (match messages s with [] => None | _ => Some s end).

(** The loop over the records: a record that raises is skipped. *)
Definition process_records (all_chat_sessions : list session)
    (composer_records : list (sql_value * sql_value)) : list session :=
  fold_left
    (fun all row =>
       match process_record (snd row) with
       | Returns (Some s) => all ++ [s]
       | _ => all
       end)
    composer_records all_chat_sessions.
End Normalizer.

(** What the counting statements keep true of the loop variables: the
    turn count is at least the question count, and at most twice the
    question count, less one while the cursor still waits for the answer
    to the last question. *)
Definition counts_ok (st : session * option str) : Prop :=
  (user_questions (fst st) <= chat_count (fst st))%nat /\
  (chat_count (fst st) + (if cursor_is (snd st) (py "user") then 1 else 0)
   <= 2 * user_questions (fst st))%nat.

(** ** The files the script touches *)

(** What lines 283-302 do on one candidate database. *)
Inductive db_result :=
| Unreadable (leftover : bool)
    (** [shutil.copy2] raises; [leftover] tells whether it had already
        created the scratch file *)
| NotQueryable
    (** the copy is made, then [sqlite3.connect] or an [execute] raises *)
| Records (composer_records : list (sql_value * sql_value)).
    (** the rows of the [composerData:%] query *)

(** What [with open(path, "w", encoding="utf-8") as f: f.write(text)]
    meets. *)
Inductive write_result :=
| OpenRaises (exc : str)
    (** [open] raises: no file is created *)
| WriteRaises (exc : str) (remains : str)
    (** [open] creates or empties the file, then [write] raises (a text
        that cannot be encoded, a full disk): the file is left holding
        [remains] *)
| WriteDone.
    (** the file holds the text *)

(** The environment of one run. *)
Record Env := {
  (** [os.getcwd()] *)
  cwd : str;
  (** the outcome of reading the database at a path *)
  databases : str -> db_result;
  (** [ChatExporter()]: the [db_paths] it finds, or the exception of
      [__init__] *)
  new_exporter : outcome (list str);
  (** [str(self.output_dir)] *)
  output_dir : str;
  (** [self.get_timestamp()] *)
  timestamp : str;
  (** what opening a path for writing and writing a text to it meet *)
  try_write : str -> str -> write_result;
}.

(** The state of the files: those present, the [os.remove] calls made, and
    the files opened for writing with what they hold afterwards, in
    order. *)
Record fs := {
  files : gset str;
  remove_calls : list str;
  written : list (str * str);
}.

(** [os.path.join(a, b)] for a relative [b] *)
Definition path_join (a b : str) : str :=
  match rev a with
  | [] => b
  | c :: _ => if c =? 47 then a ++ b else a ++ py "/" ++ b
  end.

(** A successful [shutil.copy2(src, dst)] creates or replaces [dst]. *)
Definition create_file (p : str) (st : fs) : fs :=
  {| files := {[p]} ∪ files st;
     remove_calls := remove_calls st;
     written := written st |}.

(** [try: os.remove(p) except: pass]: the call deletes the file when it is
    there; when it is not, its FileNotFoundError is swallowed. *)
Definition os_remove (p : str) (st : fs) : fs :=
  {| files := files st ∖ {[p]};
     remove_calls := remove_calls st ++ [p];
     written := written st |}.

(** ** read_chat_history *)

Section Extraction.
Context `{Builtins} (L : Locale) (E : Env).

(** [os.path.join(os.getcwd(), f'temp_state_{len(all_chat_sessions)}.vscdb')] *)
Definition temp_db_path (all_chat_sessions : list session) : str :=
  path_join (cwd E)
    (py "temp_state_" ++ str_of_nat (length all_chat_sessions) ++ py ".vscdb").

(** The body of [for db_path in self.db_paths]: the [try], its [except]
    and, on every path, its [finally]. *)
Definition process_db (st : fs * list session) (db_path : str)
  : fs * list session :=
  let '(w, all_chat_sessions) := st in
  let tmp := temp_db_path all_chat_sessions in
  let '(w', all') :=
    match databases E db_path with
    | Unreadable leftover =>
        ((if leftover then create_file tmp w else w), all_chat_sessions)
    | NotQueryable => (create_file tmp w, all_chat_sessions)
    | Records composer_records =>
        (create_file tmp w, process_records L all_chat_sessions composer_records)
    end in
  (os_remove tmp w', all').

Definition read_chat_history (db_paths : list str) (w : fs) : fs * list session :=
  fold_left process_db db_paths (w, []).
End Extraction.
(** The leading block of create_html_content in the modes all and summary. *)
Definition total_block (L : Locale) (count : nat) : str :=
  join nl
    [
      [];
      spaces 12 ++ py "<div class=" ++ dq ++ py "chat-session" ++ dq ++ py ">";
      spaces 16 ++ py "<div class=" ++ dq ++ py "chat-session-header" ++ dq ++ py ">" ++ fmt_total_sessions L (str_of_nat count) ++ py "</div>";
      spaces 12 ++ py "</div>";
      spaces 12
    ].

(** The block of one session: its header, then its messages. *)
Definition session_block (header : str) (session_content : list str) : str :=
  join nl
    [
      [];
      spaces 16 ++ py "<div class=" ++ dq ++ py "chat-session" ++ dq ++ py ">";
      spaces 20 ++ py "<div class=" ++ dq ++ py "chat-session-header" ++ dq ++ py ">" ++ header ++ py "</div>";
      spaces 20 ++ concat session_content;
      spaces 16 ++ py "</div>";
      spaces 16
    ].

(** The leading block of export_summary. *)
Definition summary_total_block (L : Locale) (count total_user_questions : nat) : str :=
  join nl
    [
      [];
      spaces 8 ++ py "<div class=" ++ dq ++ py "chat-session" ++ dq ++ py ">";
      spaces 12 ++ py "<div class=" ++ dq ++ py "chat-session-header" ++ dq ++ py ">" ++ fmt_total_summary L (str_of_nat count) (str_of_nat total_user_questions) ++ py "</div>";
      spaces 8 ++ py "</div>";
      spaces 8
    ].

(** [x in [..]] for a list of string literals *)
Definition str_in (x : str) (l : list str) : bool := existsb (str_eqb x) l.

Definition div (class : str) (body : str) : str :=
  py "<div class=" ++ dq ++ class ++ dq ++ py ">" ++ body ++ py "</div>".

(** [f'<div class="message user-message">{self.process_code_blocks(..)}</div>'] *)
Definition user_block (content_text : str) : str :=
  div (py "message user-message") (process_code_blocks content_text).

Definition assistant_block (content_text : str) : str :=
  div (py "message assistant-message") (process_code_blocks content_text).

Section Renderer.
Context `{Builtins} (L : Locale).

(** The body of [for msg in messages]: what it appends to
    [session_content]. *)
Definition render_message (msg : message) : list str :=
  if eq_str (role msg) (py "1") || eq_int (role msg) 1 then
    [user_block (content msg)]
  else if eq_str (role msg) (py "2") || eq_int (role msg) 2 then
    [assistant_block (content msg)]
  else [].

Definition session_header (mode : str) (s : session) : str :=
  if str_in mode [py "current"; py "all"] then
    let stats :=
      if str_eqb mode (py "current")
      then fmt_conversations L (str_of_nat (chat_count s))
      else py "(" ++ fmt_conversations L (str_of_nat (chat_count s)) ++ py ")" in
    if str_eqb mode (py "all") then py_str (title s) ++ py " " ++ stats else stats
  else
    let stats := py "(" ++ fmt_questions L (str_of_nat (user_questions s)) ++ py ")" in
    py_str (title s) ++ py " " ++ stats.

(** The body of [for i, session in enumerate(chat_sessions, 1)]: what it
    appends to [content]. *)
Definition render_session (mode : str) (s : session) : list str :=
  match messages s with
  | [] => []
  | _ =>
      match flat_map render_message (messages s) with
      | [] => []
      | session_content => [session_block (session_header mode s) session_content]
      end
  end.

Definition create_html_content (chat_sessions : list session) (mode : str) : str :=
  let content :=
    (if str_in mode [py "all"; py "summary"]
     then [total_block L (length chat_sessions)] else [])
    ++ flat_map (render_session mode) chat_sessions in
  join nl content.

(** [[msg.get("content", "") for msg in messages
      if msg.get("role") in ["1", 1, "user"]]] *)
Definition user_question_contents (msgs : list message) : list str :=
  List.map content (List.filter (fun m => in_user_roles (role m)) msgs).

(** The user blocks of the questions [q] with [q.strip()] true. *)
Definition question_blocks (questions : list str) : list str :=
  List.map user_block
    (List.filter (fun q => negb (str_eqb (strip q) [])) questions).

(** [s.isalnum()] *)
Definition str_isalnum (s : str) : bool :=
  match s with
  | [] => false
  | _ => forallb isalnum s
  end.

(** [c if c.isalnum() or c in " _-" else "_"], [c] an item of the title *)
Definition safe_char (c : json) : outcome str :=
  match c with
  | JStr s =>
      Returns (if str_isalnum s || contains (py " _-") s then s else py "_")
  | _ => Raises (py "AttributeError")
  end.

(** ["".join([.. for c in title])] *)
Definition safe_title (title : json) : outcome str :=
  items ← iterate title;
  parts ← for_each (fun acc c => s ← safe_char c; Returns (acc ++ [s])) items [];
  Returns (concat parts).
End Renderer.

(** ** The four exports and main *)

Section Exports.
Context `{Builtins} (L : Locale) (E : Env).

(** [with open(output_file, "w", encoding="utf-8") as f: f.write(text)]
    followed by [return str(output_file)] *)
Definition write_and_return (output_file text : str) (w : fs)
  : fs * outcome (option str) :=
  match try_write E output_file text with
  | OpenRaises exc => (w, Raises exc)
  | WriteRaises exc remains =>
      ({| files := {[output_file]} ∪ files w; remove_calls := remove_calls w;
          written := written w ++ [(output_file, remains)] |},
       Raises exc)
  | WriteDone =>
      ({| files := {[output_file]} ∪ files w; remove_calls := remove_calls w;
          written := written w ++ [(output_file, text)] |},
       Returns (Some output_file))
  end.

(** [self.output_dir / name] *)
Definition output_path (name : str) : str := output_dir E ++ py "/" ++ name.

Definition export_current_chat (db_paths : list str) (w : fs)
  : fs * outcome (option str) :=
  let '(w, chat_sessions) := read_chat_history L E db_paths w in
  match last chat_sessions with
  | None => (w, Returns None)
  | Some latest =>
      match safe_title (title latest) with
      | Raises e => (w, Raises e)
      | Returns safe =>
          let output_file :=
            output_path (py "chat " ++ safe ++ py " " ++ timestamp E ++ py ".html") in
          let content := create_html_content L [latest] (py "current") in
          write_and_return output_file
            (HTML_TEMPLATE_format L (fmt_title_chat L (py_str (title latest))) content) w
      end
  end.

Definition export_all_chats (db_paths : list str) (w : fs)
  : fs * outcome (option str) :=
  let '(w, chat_sessions) := read_chat_history L E db_paths w in
  match chat_sessions with
  | [] => (w, Returns None)
  | _ =>
      let output_file := output_path (py "All chats " ++ timestamp E ++ py ".html") in
      let content := create_html_content L chat_sessions (py "all") in
      write_and_return output_file (HTML_TEMPLATE_format L (title_all L) content) w
  end.

(** The body of the loop of export_summary: what it appends to
    [html_content]. *)
Definition summary_session (s : session) : list str :=
  match messages s, user_questions s with
  | [], _ | _, O => []
  | _, _ =>
      match user_question_contents (messages s) with
      | [] => []
      | questions =>
          [session_block
             (py_str (title s) ++ py " (" ++
              fmt_questions L (str_of_nat (user_questions s)) ++ py ")")
             (question_blocks questions)]
      end
  end.

Definition export_summary (db_paths : list str) (w : fs)
  : fs * outcome (option str) :=
  let '(w, chat_sessions) := read_chat_history L E db_paths w in
  match chat_sessions with
  | [] => (w, Returns None)
  | _ =>
      let output_file :=
        output_path (summary_file_prefix L ++ timestamp E ++ py ".html") in
      let total_user_questions := list_sum (List.map user_questions chat_sessions) in
      let html_content :=
        summary_total_block L (length chat_sessions) total_user_questions
        :: flat_map summary_session chat_sessions in
      write_and_return output_file
        (HTML_TEMPLATE_format L (title_summary L) (join nl html_content)) w
  end.

Definition export_current_summary (db_paths : list str) (w : fs)
  : fs * outcome (option str) :=
  let '(w, chat_sessions) := read_chat_history L E db_paths w in
  match last chat_sessions with
  | None => (w, Returns None)
  | Some latest =>
      match safe_title (title latest) with
      | Raises e => (w, Raises e)
      | Returns safe =>
          let output_file :=
            output_path (py "questions " ++ safe ++ py " " ++ timestamp E ++ py ".html") in
          match user_question_contents (messages latest) with
          | [] => (w, Returns None)
          | questions =>
              let content :=
                session_block (fmt_questions L (str_of_nat (user_questions latest)))
                  (question_blocks questions) in
              write_and_return output_file
                (HTML_TEMPLATE_format L
                   (fmt_title_questions L (py_str (title latest))) content) w
          end
      end
  end.

(** The [if]/[elif] chain of main on a valid mode. *)
Definition export (mode : str) (db_paths : list str) (w : fs)
  : fs * outcome (option str) :=
  if str_eqb mode (py "current") then export_current_chat db_paths w
  else if str_eqb mode (py "all") then export_all_chats db_paths w
  else if str_eqb mode (py "current-summary") then export_current_summary db_paths w
  else export_summary db_paths w.

Definition valid_modes : list str :=
  [py "current"; py "all"; py "summary"; py "current-summary"].

(** main, from [sys.argv] to the exit status of the process: 1 after
    [sys.exit(1)] or an exception nothing catches, 0 when main returns.
    The state it threads is that of the export; what [ChatExporter()]
    does to the files while it looks for the databases is the matter of
    [find_db_paths]. *)
Definition main (argv : list str) (w : fs) : fs * Z :=
  match argv with
  | [_; mode] =>
      if str_in mode valid_modes then
        match new_exporter E with
        | Raises _ => (w, 1%Z)
        | Returns db_paths =>
            match export mode db_paths w with
            | (w', Returns (Some output_file)) => (w', 0%Z)
            | (w', Returns None) => (w', 0%Z)
            | (w', Raises e) => (w', 1%Z)
            end
        end
      else (w, 1%Z)
  | _ => (w, 1%Z)
  end.
End Exports.

(** ** _find_db_paths *)

(** What the check of one workspace database (lines 196-219) meets. *)
Inductive check_result :=
| CheckUnreadable (leftover : bool)
    (** [shutil.copy2] raises; [leftover] tells whether it had already
        created the scratch file *)
| CheckNotQueryable
    (** the copy is made, then [sqlite3.connect] or the [execute] raises *)
| CheckRecords (count : nat).
    (** [len(composer_records)] of the [%composerData%] query *)

(** An entry [d] of [workspace_storage.iterdir()]. *)
Record dir_entry := {
  (** [d.name] *)
  entry_name : str;
  (** [d.is_dir()] *)
  entry_is_dir : bool;
  (** what checking [d / "state.vscdb"] meets; [None] when the file does
      not exist *)
  entry_db : option check_result;
}.

(** What _find_db_paths reads of the storage of the editor. *)
Record Storage := {
  (** [str(self.cursor_storage_dir)] *)
  cursor_storage_dir : str;
  (** [global_storage.exists()] *)
  global_storage_exists : bool;
  (** [global_db.exists()] *)
  global_db_exists : bool;
  (** [workspace_storage.exists()] *)
  workspace_storage_exists : bool;
  (** the entries of [workspace_storage.iterdir()], or the exception of
      listing them *)
  workspace_entries : outcome (list dir_entry);
}.

(** [self.cursor_storage_dir / "globalStorage" / "state.vscdb"] *)
Definition global_db (S : Storage) : str :=
  cursor_storage_dir S ++ py "/globalStorage/state.vscdb".

(** [item / "state.vscdb"] for the entry [item] of the workspace storage *)
Definition db_file (S : Storage) (item : dir_entry) : str :=
  cursor_storage_dir S ++ py "/workspaceStorage/" ++ entry_name item
  ++ py "/state.vscdb".

(** [os.path.join(os.getcwd(), f'temp_check_{item.name}.vscdb')] *)
Definition temp_check_path (cwd : str) (item : dir_entry) : str :=
  path_join cwd (py "temp_check_" ++ entry_name item ++ py ".vscdb").

(** [d.is_dir() and d.name != "images"] *)
Definition is_workspace_dir (d : dir_entry) : bool :=
  entry_is_dir d && negb (str_eqb (entry_name d) (py "images")).

(** The body of [for item in workspace_dirs]: the check of the database of
    one directory, with its [try], [except] and [finally]. *)
Definition check_workspace_db (cwd : str) (S : Storage) (st : fs * list str)
    (item : dir_entry) : fs * list str :=
  let '(w, db_paths) := st in
  match entry_db item with
  | None => (w, db_paths)
  | Some found =>
      let tmp := temp_check_path cwd item in
      let '(w', db_paths') :=
        match found with
        | CheckUnreadable leftover =>
            ((if leftover then create_file tmp w else w), db_paths)
        | CheckNotQueryable => (create_file tmp w, db_paths)
        | CheckRecords count =>
            (create_file tmp w,
             match count with
             | O => db_paths
             | _ => db_paths ++ [db_file S item]
             end)
        end in
      (os_remove tmp w', db_paths')
  end.

(** _find_db_paths: the files afterwards and [self.db_paths]. *)
Definition find_db_paths (cwd : str) (S : Storage) (w : fs) : fs * list str :=
  if global_storage_exists S && global_db_exists S then (w, [global_db S])
  else if negb (workspace_storage_exists S) then (w, [])
  else
    match workspace_entries S with
    | Raises _ => (w, [])
    | Returns entries =>
        fold_left (check_workspace_db cwd S)
          (List.filter is_workspace_dir entries) (w, [])
    end.

(** The entries whose database _find_db_paths keeps. *)
Definition has_chat_records (d : dir_entry) : bool :=
  match entry_db d with
  | Some (CheckRecords (S _)) => true
  | _ => false
  end.

(** The entries whose database _find_db_paths copies. *)
Definition has_db_file (d : dir_entry) : bool :=
  match entry_db d with
  | Some _ => true
  | None => false
  end.

(** ** _get_current_workspace *)

(** What the walk towards the root meets in one directory. *)
Record dir_probe := {
  (** [.cursor/config.json]: [None] when it does not exist, else what
      [json.load] gives on it *)
  cursor_config : option (outcome json);
  (** [(current_dir / ".git").exists()] *)
  has_git : bool;
}.

(** What _get_current_workspace reads. A directory is the list of the
    components of its absolute path, the root being the empty list. *)
Record Locator := {
  (** [os.environ.get('CURSOR_WORKSPACE_ID')] *)
  env_workspace_id : option str;
  (** [storage.json]: [None] when it does not exist, else what [json.load]
      gives on it *)
  storage_json : option (outcome json);
  (** [Path.cwd()] *)
  cwd_components : list str;
  probe : list str -> dir_probe;
  (** the built-in [hash] on a str *)
  py_hash : str -> Z;
}.

(** [str(current_dir)] *)
Definition dir_str (components : list str) : str :=
  py "/" ++ join (py "/") components.

(** [data.get(key)] on what [json.load] gave, with the AttributeError of a
    value that is not a dict. *)
Definition load_get (data : json) (key : str) : outcome json :=
  match data with
  | JObj d => Returns (get d key)
  | _ => Raises (py "AttributeError")
  end.

(** The [while current_dir != current_dir.parent] loop, on the components
    of [current_dir] from the last one up: a config that cannot be read or
    that is no dict is passed over by the bare [except]. *)
Fixpoint walk_up (K : Locator) (reversed : list str) : option json :=
  match reversed with
  | [] => None
  | _ :: parent =>
      let here := probe K (rev reversed) in
      let from_config :=
        match cursor_config here with
        | Some (Returns config_data) =>
            match load_get config_data (py "workspaceId") with
            | Returns id => if truthy id then Some id else None
            | Raises _ => None
            end
        | _ => None
        end in
      match from_config with
      | Some id => Some id
      | None =>
          if has_git here
          then Some (JStr (str_of_Z (py_hash K (dir_str (rev reversed)))))
          else walk_up K parent
      end
  end.

(** _get_current_workspace: every exception of its body ends in
    [return None]. *)
Definition get_current_workspace (K : Locator) : option json :=
  match env_workspace_id K with
  | Some (c :: id) => Some (JStr (c :: id))
  | _ =>
      let from_storage : outcome (option json) :=
        match storage_json K with
        | None => Returns None
        | Some loaded =>
            storage_data ← loaded;
            id ← load_get storage_data (py "lastActiveWorkspace");
            Returns (if truthy id then Some id else None)
        end in
      match from_storage with
      | Raises _ => None
      | Returns (Some id) => Some id
      | Returns None => walk_up K (rev (cwd_components K))
      end
  end.

(** ** Auxiliary functions of the statements *)

(** What the three [replace] calls of process_code_blocks make of one
    character. *)
Definition escape_char (c : char) : str :=
  if c =? 38 then py "&amp;"
  else if c =? 60 then py "&lt;"
  else if c =? 62 then py "&gt;"
  else [c].

(** [isinstance(msg, dict)] *)
Definition is_dict (v : json) : bool :=
  match v with
  | JObj _ => true
  | _ => false
  end.

(** A line that toggles the code-block state. *)
Definition is_fence (line : str) : bool := startswith (strip line) fence.

(** The sessions one candidate database contributes. *)
Definition sessions_of `{Builtins} (L : Locale) (E : Env) (db_path : str)
  : list session :=
  match databases E db_path with
  | Records composer_records => process_records L [] composer_records
  | _ => []
  end.

(** [c if c.isalnum() or c in " _-" else "_"] for a character [c] *)
Definition safe_code_point `{Builtins} (c : char) : char :=
  if isalnum c || (c =? 32) || (c =? 95) || (c =? 45) then c else 95.

(** ** Inputs of the examples

    The examples hold no float and, in what they print with [repr] or turn
    into a file name, no character outside ASCII; the built-ins below are
    those of Python on such inputs, and [json.loads] is given on the two
    texts the examples decode. *)

Definition ascii_isalnum (c : char) : bool :=
  ((48 <=? c) && (c <=? 57)) || ((65 <=? c) && (c <=? 90))
  || ((97 <=? c) && (c <=? 122)).

(** [{"role": 1, "content": "", "attachments": ["x.png"]}] *)
Definition attachment_msg : list (str * json) :=
  [(py "role", JInt 1); (py "content", JStr []);
   (py "attachments", JArr [JStr (py "x.png")])].

Definition quoted (s : string) : str := dq ++ py s ++ dq.

(** The text of a record holding [attachment_msg] as its conversation. *)
Definition attachment_record_text : str :=
  py "{" ++ quoted "conversation" ++ py ": [{" ++ quoted "role" ++ py ": 1, "
  ++ quoted "content" ++ py ": " ++ dq ++ dq ++ py ", " ++ quoted "attachments"
  ++ py ": [" ++ quoted "x.png" ++ py "]}]}".

Definition attachment_record : json :=
  JObj [(py "conversation", JArr [JObj attachment_msg])].

Definition mk_msg (r : json) (c : string) : json :=
  JObj [(py "role", r); (py "content", JStr (py c))].

(** A conversation with the roles user, assistant, assistant. *)
Definition user_assistant_assistant : json :=
  JObj [(py "conversation",
         JArr [mk_msg (JStr (py "user")) "q"; mk_msg (JStr (py "assistant")) "a1";
               mk_msg (JStr (py "assistant")) "a2"])].

(** A conversation whose one message has a role that is neither indicator. *)
Definition system_conversation : json :=
  JObj [(py "conversation", JArr [mk_msg (JStr (py "system")) "hi"])].

(** The text of the record [system_conversation] is decoded from. *)
Definition system_record_text : str :=
  py "{" ++ quoted "conversation" ++ py ": [{" ++ quoted "role" ++ py ": "
  ++ quoted "system" ++ py ", " ++ quoted "content" ++ py ": " ++ quoted "hi"
  ++ py "}]}".

Definition example_runtime : Builtins := {|
  float_repr := fun _ => py "nan";
  isprintable := fun _ => true;
  isalnum := ascii_isalnum;
  json_loads := fun text =>
    if str_eqb text attachment_record_text then Returns attachment_record
    else if str_eqb text system_record_text then Returns system_conversation
    else Raises (py "JSONDecodeError");
  decode_utf8 := fun bytes =>
    if forallb (fun b => b <? 128) bytes then Returns bytes
    else Raises (py "UnicodeDecodeError");
|}.

Definition empty_fs : fs := {| files := ∅; remove_calls := []; written := [] |}.

(** A run that finds no database. *)
Definition no_database : Env := {|
  cwd := py "/tmp";
  databases := fun _ => Unreadable false;
  new_exporter := Returns [];
  output_dir := py "/home/u/Downloads/cursor-chat-history/export";
  timestamp := py "0102_0304";
  try_write := fun _ _ => WriteDone;
|}.

(** A run over three candidates: one that cannot be copied, one that is not
    a database, one that holds the record of [attachment_record_text]. *)
Definition three_candidates : Env := {|
  cwd := py "/tmp";
  databases := fun path =>
    if str_eqb path (py "a") then Unreadable true
    else if str_eqb path (py "b") then NotQueryable
    else Records [(SqlText (py "composerData:1"), SqlText attachment_record_text);
                  (SqlText (py "composerData:2"), SqlText (py "{"))];
  new_exporter := Returns [py "a"; py "b"; py "c"];
  output_dir := py "/home/u/Downloads/cursor-chat-history/export";
  timestamp := py "0102_0304";
  try_write := fun _ _ => WriteDone;
|}.

(** A run over one database holding the record of [system_record_text]. *)
Definition system_candidate : Env := {|
  cwd := py "/tmp";
  databases := fun _ =>
    Records [(SqlText (py "composerData:1"), SqlText system_record_text)];
  new_exporter := Returns [py "state.vscdb"];
  output_dir := py "/home/u/Downloads/cursor-chat-history/export";
  timestamp := py "0102_0304";
  try_write := fun _ _ => WriteDone;
|}.

(** A session as read_chat_history builds it from a message
    [{"isUser": true, "text": "hi"}]. *)
Definition is_user_session : session := {|
  composerId := JStr []; version := JInt 0; title := JStr (py "T");
  messages := [{| role := JStr (py "user"); content := py "hi" |}];
  user_questions := 1; chat_count := 1;
|}.

(** A session whose title holds an HTML metacharacter. *)
Definition angle_session : session := {|
  composerId := JStr []; version := JInt 0; title := JStr (py "a<b");
  messages := [{| role := JInt 1; content := py "x<y" |}];
  user_questions := 1; chat_count := 1;
|}.


(** The text of a record with a null name and no title. *)
Definition null_name_record_text : str :=
  py "{" ++ quoted "name" ++ py ": null, " ++ quoted "conversation" ++ py ": [{"
  ++ quoted "role" ++ py ": 1, " ++ quoted "content" ++ py ": " ++ quoted "q"
  ++ py "}]}".

Definition null_name_record : json :=
  JObj [(py "name", JNull);
        (py "conversation", JArr [mk_msg (JInt 1) "q"])].

(** The runtime of the examples, with [json.loads] given on
    [null_name_record_text] as well. *)
Definition null_name_runtime : Builtins := {|
  float_repr := float_repr (Builtins := example_runtime);
  isprintable := isprintable (Builtins := example_runtime);
  isalnum := ascii_isalnum;
  json_loads := fun text =>
    if str_eqb text null_name_record_text then Returns null_name_record
    else json_loads (Builtins := example_runtime) text;
  decode_utf8 := decode_utf8 (Builtins := example_runtime);
|}.

(** A run over one database holding the record of
    [null_name_record_text]. *)
Definition null_name_candidate : Env := {|
  cwd := py "/tmp";
  databases := fun _ =>
    Records [(SqlText (py "composerData:1"), SqlText null_name_record_text)];
  new_exporter := Returns [py "state.vscdb"];
  output_dir := py "/home/u/Downloads/cursor-chat-history/export";
  timestamp := py "0102_0304";
  try_write := fun _ _ => WriteDone;
|}.

(** A workspace storage with five entries: a file, the images directory,
    a workspace without database, one whose database holds no chat record,
    and one whose database holds two. *)
Definition five_entries : Storage := {|
  cursor_storage_dir := py "/U";
  global_storage_exists := true;
  global_db_exists := false;
  workspace_storage_exists := true;
  workspace_entries :=
    Returns
      [{| entry_name := py "storage.json"; entry_is_dir := false;
          entry_db := None |};
       {| entry_name := py "images"; entry_is_dir := true;
          entry_db := Some (CheckRecords 3) |};
       {| entry_name := py "w1"; entry_is_dir := true; entry_db := None |};
       {| entry_name := py "w2"; entry_is_dir := true;
          entry_db := Some (CheckRecords 0) |};
       {| entry_name := py "w3"; entry_is_dir := true;
          entry_db := Some (CheckRecords 2) |}];
|}.

(** A locator run from [/home/u/proj/src]: no environment variable, no
    storage.json, an unreadable config in [src], a [.git] in [proj] and
    another one in [home]; the hash of a str, which Python draws anew in
    every process, is here its length. *)
Definition nested_git : Locator := {|
  env_workspace_id := None;
  storage_json := None;
  cwd_components := [py "home"; py "u"; py "proj"; py "src"];
  probe := fun dir =>
    if bool_decide (dir = [py "home"; py "u"; py "proj"; py "src"])
    then {| cursor_config := Some (Raises (py "JSONDecodeError"));
            has_git := false |}
    else if bool_decide (dir = [py "home"; py "u"; py "proj"])
    then {| cursor_config := None; has_git := true |}
    else if bool_decide (dir = [py "home"])
    then {| cursor_config := None; has_git := true |}
    else {| cursor_config := None; has_git := false |};
  py_hash := fun s => Z.of_nat (length s);
|}.

(** The same run with a storage.json that cannot be parsed. *)
Definition broken_storage : Locator := {|
  env_workspace_id := Some [];
  storage_json := Some (Raises (py "JSONDecodeError"));
  cwd_components := cwd_components nested_git;
  probe := probe nested_git;
  py_hash := py_hash nested_git;
|}.

(** The text of a record whose title and whose message hold a [<]. *)
Definition angle_record_text : str :=
  py "{" ++ quoted "title" ++ py ": " ++ quoted "a<b" ++ py ", "
  ++ quoted "conversation" ++ py ": [{" ++ quoted "role" ++ py ": 1, "
  ++ quoted "content" ++ py ": " ++ quoted "x<y" ++ py "}]}".

Definition angle_record : json :=
  JObj [(py "title", JStr (py "a<b"));
        (py "conversation", JArr [mk_msg (JInt 1) "x<y"])].

(** The runtime of the examples, with [json.loads] given on
    [angle_record_text] as well. *)
Definition angle_runtime : Builtins := {|
  float_repr := float_repr (Builtins := example_runtime);
  isprintable := isprintable (Builtins := example_runtime);
  isalnum := ascii_isalnum;
  json_loads := fun text =>
    if str_eqb text angle_record_text then Returns angle_record
    else json_loads (Builtins := example_runtime) text;
  decode_utf8 := decode_utf8 (Builtins := example_runtime);
|}.

(** A run over one database holding the record of [angle_record_text]. *)
Definition angle_candidate : Env := {|
  cwd := py "/tmp";
  databases := fun _ =>
    Records [(SqlText (py "composerData:1"), SqlText angle_record_text)];
  new_exporter := Returns [py "state.vscdb"];
  output_dir := py "/home/u/Downloads/cursor-chat-history/export";
  timestamp := py "0102_0304";
  try_write := fun _ _ => WriteDone;
|}.

(** The documents that [chat_export.py all] and [chat_export.py current]
    write in that run. *)
Definition angle_document_all : str :=
  HTML_TEMPLATE_format en (title_all en)
    (create_html_content (H := angle_runtime) en [angle_session] (py "all")).

Definition angle_document_current : str :=
  HTML_TEMPLATE_format en (fmt_title_chat en (py "a<b"))
    (create_html_content (H := angle_runtime) en [angle_session] (py "current")).

(** * Properties *)

(** ** Strings *)

Lemma str_eqb_eq (a b : str) : str_eqb a b = true <-> a = b.
Proof.
  revert b. induction a as [|x a IH]; intros [|y b]; simpl; split;
    try congruence; try discriminate.
  - intros Hxy. apply andb_true_iff in Hxy as [Hx Ha].
    apply N.eqb_eq in Hx. apply IH in Ha. congruence.
  - intros [= -> ->]. rewrite N.eqb_refl. simpl. now apply IH.
Qed.

Lemma str_eqb_refl (a : str) : str_eqb a a = true.
Proof. now apply str_eqb_eq. Qed.

Lemma str_eqb_nil_false (c : char) (s : str) : str_eqb (c :: s) [] = false.
Proof. reflexivity. Qed.

Lemma startswith_nil (s : str) : startswith s [] = true.
Proof. now destruct s. Qed.

Lemma startswith_app (p s : str) : startswith (p ++ s) p = true.
Proof.
  induction p as [|a p IH]; simpl.
  - apply startswith_nil.
  - now rewrite N.eqb_refl, IH.
Qed.

Lemma contains_startswith (s sub : str) :
  startswith s sub = true -> contains s sub = true.
Proof. intros Hs. destruct s; cbn [contains]; now rewrite Hs. Qed.

Lemma contains_prefixed (pre s sub : str) :
  contains s sub = true -> contains (pre ++ s) sub = true.
Proof.
  intros Hs. induction pre as [|c pre IH].
  - exact Hs.
  - change ((c :: pre) ++ s) with (c :: (pre ++ s)). cbn [contains].
    rewrite IH. apply orb_true_r.
Qed.

(** A string that occurs between a prefix and a suffix is found by [in]. *)
Lemma contains_app (pre sub post : str) :
  contains (pre ++ sub ++ post) sub = true.
Proof.
  apply contains_prefixed, contains_startswith, startswith_app.
Qed.

Lemma startswith_suffixed (s post sub : str) :
  startswith s sub = true -> startswith (s ++ post) sub = true.
Proof.
  revert s. induction sub as [|a sub IH]; intros s.
  - intros _. apply startswith_nil.
  - destruct s as [|b s]; simpl; [discriminate|].
    intros Hb. apply andb_true_iff in Hb as [-> Hs]. simpl. now apply IH.
Qed.

Lemma contains_suffixed (s post sub : str) :
  contains s sub = true -> contains (s ++ post) sub = true.
Proof.
  induction s as [|c s IH]; cbn [contains].
  - rewrite orb_false_r. intros Hs. apply contains_startswith.
    now apply (startswith_suffixed [] post sub).
  - intros Hc. apply orb_true_iff in Hc as [Hc | Hc].
    + apply contains_startswith. now apply startswith_suffixed.
    + change ((c :: s) ++ post) with (c :: (s ++ post)). cbn [contains].
      rewrite (IH Hc). apply orb_true_r.
Qed.

(** A part of a joined list is found in the whole. *)
Lemma contains_join (sep : str) (parts : list str) (p sub : str) :
  In p parts -> contains p sub = true -> contains (join sep parts) sub = true.
Proof.
  intros Hin Hp. induction parts as [|q parts IH]; [destruct Hin|].
  destruct Hin as [-> | Hin].
  - destruct parts as [|q' parts]; simpl; [exact Hp|].
    now apply contains_suffixed.
  - specialize (IH Hin). destruct parts as [|q' parts]; [destruct Hin|].
    change (join sep (q :: q' :: parts)) with (q ++ sep ++ join sep (q' :: parts)).
    apply contains_prefixed. now apply contains_prefixed.
Qed.

(** ** Roles *)

Section RoleFacts.
Context `{Builtins}.

(** The role always resolves to a true value: its last alternative is one
    of two string literals. *)
Lemma resolve_role_truthy (d : list (str * json)) : truthy (resolve_role d) = true.
Proof.
  unfold resolve_role, py_or.
  destruct (truthy (get d (py "role"))) eqn:E1; [exact E1|].
  destruct (truthy (get d (py "type"))) eqn:E2; [exact E2|].
  destruct (truthy (get d (py "isUser"))); reflexivity.
Qed.

Lemma float_not_1_and_2 (f : spec_float) :
  float_eq_Z f 1 = true -> float_eq_Z f 2 = false.
Proof.
  destruct f as [s | s | | s m e]; simpl; try discriminate.
  destruct (0 <=? e)%Z eqn:He.
  - intros H1. apply Z.eqb_eq in H1. apply Z.eqb_neq. lia.
  - intros H1. apply Z.eqb_eq in H1. apply Z.eqb_neq.
    assert (0 < 2 ^ (- e))%Z by (apply Z.pow_pos_nonneg; lia). lia.
Qed.

(** No role is both a user indicator and an assistant indicator. *)
Lemma user_role_not_assistant (r : json) :
  in_user_roles r = true -> in_assistant_roles r = false.
Proof.
  unfold in_user_roles, in_assistant_roles.
  destruct r as [| b | z | f | s | items | fields]; simpl; try discriminate.
  - destruct b; simpl; intros; reflexivity || discriminate.
  - rewrite !orb_false_r. intros Hz. apply Z.eqb_eq in Hz. subst. reflexivity.
  - rewrite !orb_false_r. apply float_not_1_and_2.
  - rewrite !orb_false_r. intros Hs. apply orb_true_iff in Hs as [Hs | Hs];
      apply str_eqb_eq in Hs; subst; reflexivity.
Qed.
End RoleFacts.

(** ** The counters of a session *)

Section Counters.
Context `{Builtins} (L : Locale).

Lemma keep_message_counts st r c :
  counts_ok st -> counts_ok (keep_message st r c).
Proof.
  destruct st as [s cur]. unfold counts_ok, keep_message. simpl.
  intros [Hlo Hhi].
  destruct (in_user_roles r); [simpl; lia|].
  destruct (in_assistant_roles r); simpl.
  - destruct (cursor_is cur (py "user")); lia.
  - split; [lia | exact Hhi].
Qed.

Lemma process_msg_counts st msg st' :
  counts_ok st -> process_msg L st msg = Returns st' -> counts_ok st'.
Proof.
  intros Hst. unfold process_msg.
  destruct msg as [| | | | | | d]; try (intros [= <-]; exact Hst).
  destruct (truthy (resolve_role d)); [|intros [= <-]; exact Hst].
  destruct (is_blank (resolve_content d)) as [blank|e]; simpl; [|discriminate].
  destruct (final_content L d blank) as [| | | | [|c s] | |];
    intros [= <-]; try exact Hst.
  now apply keep_message_counts.
Qed.

Lemma for_each_counts msgs st st' :
  counts_ok st -> for_each (process_msg L) msgs st = Returns st' -> counts_ok st'.
Proof.
  revert st. induction msgs as [|m msgs IH]; intros st Hst; simpl.
  - intros [= <-]. exact Hst.
  - destruct (process_msg L st m) as [st1|e] eqn:E; simpl; [|discriminate].
    apply IH. eapply process_msg_counts; eauto.
Qed.

Lemma build_session_counts data s :
  build_session L data = Returns s ->
  (user_questions s <= chat_count s)%nat /\
  (chat_count s <= 2 * user_questions s)%nat.
Proof.
  unfold build_session. destruct data as [| | | | | | d]; try discriminate.
  destruct (iterate _) as [msgs|e]; simpl; [|discriminate].
  destruct (for_each _ _ _) as [st|e] eqn:E; simpl; [|discriminate].
  intros [= <-]. apply for_each_counts in E.
  - destruct E as [Hlo Hhi]. split; [exact Hlo|].
    destruct (cursor_is (snd st) (py "user")); lia.
  - split; simpl; lia.
Qed.

(** A property of every session a record can give holds of every session
    of the list the loops build. *)
Lemma process_records_Forall (P : session -> Prop) all rows :
  (forall data s, build_session L data = Returns s -> P s) ->
  Forall P all -> Forall P (process_records L all rows).
Proof.
  intros HP. revert all. unfold process_records.
  induction rows as [|row rows IH]; intros all Hall; simpl; [exact Hall|].
  apply IH. unfold process_record.
  destruct (decode_record (snd row)) as [data|e]; simpl; [|exact Hall].
  destruct (build_session L data) as [s|e] eqn:E; simpl; [|exact Hall].
  destruct (messages s); [exact Hall|].
  apply Forall_app. split; [exact Hall|]. constructor; [|constructor].
  eapply HP; eauto.
Qed.

Lemma read_chat_history_Forall (P : session -> Prop) (E : Env) db_paths w :
  (forall data s, build_session L data = Returns s -> P s) ->
  Forall P (snd (read_chat_history L E db_paths w)).
Proof.
  intros HP. unfold read_chat_history.
  assert (Hgen : forall st, Forall P (snd st) ->
            Forall P (snd (fold_left (process_db L E) db_paths st))).
  { induction db_paths as [|p ps IH]; intros st Hst; simpl; [exact Hst|].
    apply IH. destruct st as [w0 all]. unfold process_db.
    destruct (databases E p) as [leftover| |rows]; simpl; try exact Hst.
    now apply process_records_Forall. }
  apply Hgen. constructor.
Qed.
End Counters.

(** ** One message *)

Section OneMessage.
Context `{Builtins} (L : Locale).

Lemma placeholder_nonempty :
  exists c s, attachment_placeholder L = c :: s.
Proof. destruct L; simpl; eauto. Qed.

Lemma truthy_JStr (s : str) : truthy (JStr s) = true -> exists c s', s = c :: s'.
Proof. destruct s as [|c s']; [discriminate | eauto]. Qed.

(** A content that passes the blank test and is true is a str. *)
Lemma is_blank_truthy_str content blank :
  is_blank content = Returns blank -> truthy content = true ->
  exists c s, content = JStr (c :: s).
Proof.
  unfold is_blank. intros Hb Ht. rewrite Ht in Hb. simpl in Hb.
  destruct content as [| | | | s | |]; try discriminate.
  apply truthy_JStr in Ht as (c & s' & ->). eauto.
Qed.

(** The content of a message after the attachment rule is a str whenever
    it is true. *)
Lemma final_content_truthy_str d blank :
  is_blank (resolve_content d) = Returns blank ->
  truthy (final_content L d blank) = true ->
  exists c s, final_content L d blank = JStr (c :: s).
Proof.
  intros Hb. unfold final_content.
  destruct (blank && has_attachment d && in_user_roles (resolve_role d)).
  - intros _. destruct placeholder_nonempty as (c & s & ->). eauto.
  - now apply (is_blank_truthy_str _ blank).
Qed.

(** What process_msg does on a dict, by the value of the blank test. *)
Lemma process_msg_dict st d blank :
  is_blank (resolve_content d) = Returns blank ->
  process_msg L st (JObj d) =
    match final_content L d blank with
    | JStr (c :: s) => Returns (keep_message st (resolve_role d) (c :: s))
    | _ => Returns st
    end.
Proof.
  intros Hb. unfold process_msg. rewrite resolve_role_truthy, Hb. reflexivity.
Qed.

Lemma keep_message_messages st r c :
  messages (fst (keep_message st r c)) =
  messages (fst st) ++ [{| role := r; content := c |}].
Proof.
  destruct st as [s cur]. unfold keep_message.
  destruct (in_user_roles r); [reflexivity|].
  destruct (in_assistant_roles r); reflexivity.
Qed.

(** A message with a str content that is not empty is kept, whatever its
    role: with its content, or with the placeholder. *)
Lemma process_msg_nonempty st d c s :
  resolve_content d = JStr (c :: s) ->
  exists c', c' <> [] /\
    process_msg L st (JObj d) = Returns (keep_message st (resolve_role d) c').
Proof.
  intros Hc.
  assert (Hb : is_blank (resolve_content d) = Returns (str_eqb (strip (c :: s)) []))
    by (rewrite Hc; reflexivity).
  rewrite (process_msg_dict _ _ _ Hb). unfold final_content.
  destruct (_ && _ && _).
  - destruct placeholder_nonempty as (c' & s' & ->). now exists (c' :: s').
  - rewrite Hc. now exists (c :: s).
Qed.
End OneMessage.

(** ** Claims on the turn counters *)

Lemma assistant_role_not_user (r : json) :
  in_assistant_roles r = true -> in_user_roles r = false.
Proof.
  intros Ha. destruct (in_user_roles r) eqn:Hu; [|reflexivity].
  apply user_role_not_assistant in Hu. congruence.
Qed.

(** The session of a record whose conversation is the list [msgs]. *)
Lemma build_session_conversation `{Builtins} (L : Locale) (msgs : list json) :
  build_session L (JObj [(py "conversation", JArr msgs)]) =
  st ← for_each (process_msg L) msgs
         ({| composerId := JStr []; version := JInt 0;
             title := JStr (unnamed_session L); messages := [];
             user_questions := 0; chat_count := 0 |}, None);
  Returns (fst st).
Proof. reflexivity. Qed.

(** C2, as the code has it: for kept messages with the roles user,
    assistant, assistant, the counting pass gives chat_count = 2 (the user
    message and the first assistant message count, the second assistant
    message does not) and user_questions = 1. *)
Theorem user_assistant_assistant_counts `{Builtins} (L : Locale)
    (d1 d2 d3 : list (str * json)) (c1 c2 c3 : char) (s1 s2 s3 : str) :
  in_user_roles (resolve_role d1) = true ->
  in_assistant_roles (resolve_role d2) = true ->
  in_assistant_roles (resolve_role d3) = true ->
  resolve_content d1 = JStr (c1 :: s1) ->
  resolve_content d2 = JStr (c2 :: s2) ->
  resolve_content d3 = JStr (c3 :: s3) ->
  exists s,
    build_session L (JObj [(py "conversation", JArr [JObj d1; JObj d2; JObj d3])])
      = Returns s
    /\ length (messages s) = 3%nat /\ user_questions s = 1%nat
    /\ chat_count s = 2%nat.
Proof.
  intros Hr1 Hr2 Hr3 Hc1 Hc2 Hc3.
  pose proof (assistant_role_not_user _ Hr2) as Hu2.
  pose proof (assistant_role_not_user _ Hr3) as Hu3.
  rewrite build_session_conversation. cbn [for_each].
  set (st0 := (_, None)).
  destruct (process_msg_nonempty L st0 d1 c1 s1 Hc1) as (k1 & _ & ->).
  unfold mbind at 2. unfold outcome_bind.
  set (st1 := keep_message st0 (resolve_role d1) k1).
  destruct (process_msg_nonempty L st1 d2 c2 s2 Hc2) as (k2 & _ & ->).
  unfold mbind at 2. unfold outcome_bind.
  set (st2 := keep_message st1 (resolve_role d2) k2).
  destruct (process_msg_nonempty L st2 d3 c3 s3 Hc3) as (k3 & _ & ->).
  unfold mbind, outcome_bind.
  eexists. split; [reflexivity|].
  subst st2 st1 st0. unfold keep_message. rewrite Hr1, Hu2, Hr2, Hu3, Hr3.
  simpl. repeat split; reflexivity.
Qed.

(** The theorem at the conversation [user_assistant_assistant]. *)
Lemma user_assistant_assistant_counts_witness :
  exists s,
    build_session (H := example_runtime) en user_assistant_assistant = Returns s
    /\ length (messages s) = 3%nat /\ user_questions s = 1%nat
    /\ chat_count s = 2%nat.
Proof.
  apply (user_assistant_assistant_counts (H := example_runtime) en
           [(py "role", JStr (py "user")); (py "content", JStr (py "q"))]
           [(py "role", JStr (py "assistant")); (py "content", JStr (py "a1"))]
           [(py "role", JStr (py "assistant")); (py "content", JStr (py "a2"))]
           113 97 97 [] [49] [50]); reflexivity.
Defined.

(** C2 as stated fails: on the roles user, assistant, assistant the count
    is not 3. *)
Lemma user_assistant_assistant_not_three :
  exists s,
    build_session (H := example_runtime) en user_assistant_assistant = Returns s
    /\ chat_count s <> 3%nat.
Proof. eexists. split; [vm_compute; reflexivity | simpl; lia]. Qed.

(** C7: in every session read_chat_history returns, chat_count is at least
    user_questions. *)
Theorem chat_count_ge_user_questions `{Builtins} (L : Locale) (E : Env)
    (db_paths : list str) (w : fs) :
  Forall (fun s => (user_questions s <= chat_count s)%nat)
    (snd (read_chat_history L E db_paths w)).
Proof.
  apply read_chat_history_Forall. intros data s Hs.
  now apply build_session_counts in Hs.
Qed.

(** C10: in every session read_chat_history returns, chat_count is at most
    twice user_questions. *)
Theorem chat_count_le_twice_user_questions `{Builtins} (L : Locale) (E : Env)
    (db_paths : list str) (w : fs) :
  Forall (fun s => (chat_count s <= 2 * user_questions s)%nat)
    (snd (read_chat_history L E db_paths w)).
Proof.
  apply read_chat_history_Forall. intros data s Hs.
  now apply build_session_counts in Hs.
Qed.

(** The two bounds are about lists that are not empty: the run over
    [three_candidates] returns one session, with one question and one turn. *)
Example three_candidates_sessions :
  List.map (fun s => (user_questions s, chat_count s, length (messages s)))
    (snd (read_chat_history (H := example_runtime) en three_candidates
            [py "a"; py "b"; py "c"] empty_fs))
  = [(1, 1, 1)%nat].
Proof. vm_compute. reflexivity. Qed.

(** Both bounds are reached: one question and its answer give 1 and 2. *)
Example question_and_answer_counts :
  exists s,
    build_session (H := example_runtime) en
      (JObj [(py "conversation",
              JArr [mk_msg (JInt 1) "q"; mk_msg (JInt 2) "a"])]) = Returns s
    /\ user_questions s = 1%nat /\ chat_count s = 2%nat.
Proof. eexists. split; [vm_compute; reflexivity | split; reflexivity]. Qed.

(** ** Claims on the messages kept *)

(** C3, as the code has it: a dict message whose processing does not raise
    is kept exactly when its content after the attachment rule is true, and
    that content is then a str that is not empty; the role plays no part in
    it, and a kept message whose role is neither a user nor an assistant
    indicator is appended like the others and leaves both counters as they
    were. *)
Theorem message_kept_iff_content `{Builtins} (L : Locale)
    (st st' : session * option str) (d : list (str * json)) :
  process_msg L st (JObj d) = Returns st' ->
  exists blank,
    is_blank (resolve_content d) = Returns blank
    /\ (truthy (final_content L d blank) = true ->
        exists c, c <> [] /\ final_content L d blank = JStr c
          /\ messages (fst st') =
             messages (fst st) ++ [{| role := resolve_role d; content := c |}])
    /\ (truthy (final_content L d blank) = false -> st' = st)
    /\ (in_user_roles (resolve_role d) = false ->
        in_assistant_roles (resolve_role d) = false ->
        user_questions (fst st') = user_questions (fst st)
        /\ chat_count (fst st') = chat_count (fst st)).
Proof.
  intros Hp.
  destruct (is_blank (resolve_content d)) as [blank|e] eqn:Hb.
  - exists blank. split; [reflexivity|].
    rewrite (process_msg_dict L st d blank Hb) in Hp.
    split; [|split].
    + intros Ht.
      destruct (final_content_truthy_str L d blank Hb Ht) as (c & s & Hf).
      rewrite Hf in Hp. injection Hp as <-.
      exists (c :: s). split; [discriminate|]. split; [exact Hf|].
      apply keep_message_messages.
    + intros Hf.
      destruct (final_content L d blank) as [| | | | [|c s] | |];
        try (injection Hp as <-; reflexivity).
      discriminate Hf.
    + intros Hu Ha.
      destruct (final_content L d blank) as [| | | | [|c s] | |];
        injection Hp as <-; try (split; reflexivity).
      destruct st as [s0 cur]. unfold keep_message. rewrite Hu, Ha.
      split; reflexivity.
  - unfold process_msg in Hp. rewrite resolve_role_truthy, Hb in Hp.
    discriminate Hp.
Qed.

(** The theorem at a message with the role "system", first of its
    session: it is appended, and the counters stay at 0. *)
Lemma message_kept_iff_content_witness :
  let d := [(py "role", JStr (py "system")); (py "content", JStr (py "hi"))] in
  let s0 := {| composerId := JStr []; version := JInt 0; title := JNull;
               messages := []; user_questions := 0; chat_count := 0 |} in
  let s1 := {| composerId := JStr []; version := JInt 0; title := JNull;
               messages := [{| role := JStr (py "system"); content := py "hi" |}];
               user_questions := 0; chat_count := 0 |} in
  process_msg (H := example_runtime) en (s0, None) (JObj d) = Returns (s1, None)
  /\ exists blank,
       is_blank (resolve_content d) = Returns blank
       /\ (truthy (final_content (H := example_runtime) en d blank) = true ->
           exists c, c <> []
             /\ final_content (H := example_runtime) en d blank = JStr c
             /\ messages s1 = messages s0 ++ [{| role := resolve_role d; content := c |}])
       /\ (truthy (final_content (H := example_runtime) en d blank) = false ->
           (s1, None) = (s0, @None str))
       /\ (in_user_roles (resolve_role d) = false ->
           in_assistant_roles (resolve_role d) = false ->
           user_questions s1 = user_questions s0
           /\ chat_count s1 = chat_count s0).
Proof.
  intros d s0 s1. split; [reflexivity|].
  apply (message_kept_iff_content (H := example_runtime) en (s0, None) (s1, None) d).
  reflexivity.
Defined.

(** C3 as stated fails: a message whose role is neither indicator is in
    the session, and the session is kept. *)
Lemma system_message_is_kept :
  in_user_roles (JStr (py "system")) = false
  /\ in_assistant_roles (JStr (py "system")) = false
  /\ List.map messages
       (snd (read_chat_history (H := example_runtime) en system_candidate
               [py "state.vscdb"] empty_fs))
     = [[{| role := JStr (py "system"); content := py "hi" |}]].
Proof. repeat split; vm_compute; reflexivity. Qed.

Lemma is_blank_true (content : json) :
  is_blank content = Returns true <->
  truthy content = false \/ exists s, content = JStr s /\ strip s = [].
Proof.
  unfold is_blank. split.
  - destruct (truthy content) eqn:Ht; simpl; [|now left].
    destruct content as [| | | | s | |]; try discriminate.
    intros [= Hs]. right. exists s. split; [reflexivity|]. now apply str_eqb_eq.
  - intros [-> | (s & -> & Hs)]; [reflexivity|].
    destruct (truthy (JStr s)); simpl; [|reflexivity].
    rewrite Hs. reflexivity.
Qed.

(** C6: a message whose content is empty or only whitespace, whose record
    shows an attachment marker and whose role is a user indicator is kept
    with the placeholder as its content, and counts as one more user
    question. *)
Theorem attachment_only_user_message_kept `{Builtins} (L : Locale)
    (st : session * option str) (d : list (str * json)) :
  is_blank (resolve_content d) = Returns true ->
  has_attachment d = true ->
  in_user_roles (resolve_role d) = true ->
  exists st',
    process_msg L st (JObj d) = Returns st'
    /\ messages (fst st') =
       messages (fst st)
       ++ [{| role := resolve_role d; content := attachment_placeholder L |}]
    /\ user_questions (fst st') = (user_questions (fst st) + 1)%nat
    /\ chat_count (fst st') = (chat_count (fst st) + 1)%nat.
Proof.
  intros Hb Ha Hu.
  rewrite (process_msg_dict L st d true Hb). unfold final_content.
  rewrite Ha, Hu. simpl.
  destruct (placeholder_nonempty L) as (c & s & Hp). rewrite Hp.
  eexists. split; [reflexivity|].
  split; [apply keep_message_messages|].
  destruct st as [s0 cur]. unfold keep_message. rewrite Hu. split; reflexivity.
Qed.

(** The theorem at the record
    [{"role": 1, "content": "", "attachments": ["x.png"]}], first message of
    a session. *)
Lemma attachment_only_user_message_kept_witness :
  exists st',
    process_msg (H := example_runtime) en
      ({| composerId := JStr []; version := JInt 0; title := JNull;
          messages := []; user_questions := 0; chat_count := 0 |}, None)
      (JObj attachment_msg) = Returns st'
    /\ messages (fst st') =
       [{| role := JInt 1;
           content := py "(User inserted an attachment" ++ [128206] ++ py ")" |}]
    /\ user_questions (fst st') = 1%nat
    /\ chat_count (fst st') = 1%nat.
Proof.
  apply (attachment_only_user_message_kept (H := example_runtime) en
           ({| composerId := JStr []; version := JInt 0; title := JNull;
               messages := []; user_questions := 0; chat_count := 0 |}, None)
           attachment_msg); reflexivity.
Defined.

(** ** Claims on process_code_blocks *)

Lemma split_one_line (sep : char) (s : str) :
  existsb (N.eqb sep) s = false -> split sep s = [s].
Proof.
  induction s as [|c s IH]; simpl; [reflexivity|].
  intros Hs. apply orb_false_iff in Hs as [Hc Hs].
  rewrite N.eqb_sym, Hc, (IH Hs). reflexivity.
Qed.

Lemma replace_keeps_one_line (old : char) (new s : str) :
  existsb (N.eqb 10) new = false ->
  existsb (N.eqb 10) s = false ->
  existsb (N.eqb 10) (replace old new s) = false.
Proof.
  intros Hnew. unfold replace. induction s as [|c s IH]; simpl; [reflexivity|].
  intros Hs. apply orb_false_iff in Hs as [Hc Hs].
  rewrite existsb_app, (IH Hs), orb_false_r.
  destruct (c =? old); [exact Hnew | simpl; now rewrite Hc].
Qed.

(** A message of one line that starts with the fence after stripping is
    dropped whole: the line opens a block that collects nothing. *)
Lemma one_line_fence_is_dropped (text : str) :
  existsb (N.eqb 10) text = false ->
  startswith (strip (escape_html text)) fence = true ->
  process_code_blocks text = [].
Proof.
  intros Hnl Hf. unfold process_code_blocks.
  destruct text as [|c text]; [reflexivity|].
  rewrite split_one_line.
  - cbn [fold_left]. unfold scan_line. rewrite Hf. cbn. reflexivity.
  - unfold escape_html. now repeat apply replace_keeps_one_line.
Qed.

(** C8 as stated fails: the one-line message is not turned into a
    preformatted block. *)
Lemma inline_fence_gives_no_block :
  single_pre_block (process_code_blocks (py "```print(1)```")) = false.
Proof. vm_compute. reflexivity. Qed.

(** C8, as the code has it: the one-line message [```print(1)```] is taken
    as an opening fence and gives the empty string, which holds neither a
    triple backtick nor a preformatted block; with the fences on lines of
    their own the same code comes out as one preformatted block with no
    triple backtick. *)
Theorem fenced_message_output :
  process_code_blocks (py "```print(1)```") = []
  /\ contains (process_code_blocks (py "```print(1)```")) fence = false
  /\ contains (process_code_blocks (py "```print(1)```")) (py "<pre>") = false
  /\ process_code_blocks (fence ++ nl ++ py "print(1)" ++ nl ++ fence)
     = pre_open ++ py "print(1)" ++ nl ++ pre_close
  /\ single_pre_block
       (process_code_blocks (fence ++ nl ++ py "print(1)" ++ nl ++ fence)) = true
  /\ contains
       (process_code_blocks (fence ++ nl ++ py "print(1)" ++ nl ++ fence)) fence
     = false.
Proof. repeat split; vm_compute; reflexivity. Qed.

(** ** Claims on the transcript renderer *)

(** C4, where the code departs from it: the transcript renderer emits a
    user block for the roles "1" and 1 and an assistant block for the roles
    "2" and 2, the content going through process_code_blocks; a message
    with the role "user" or "assistant", which read_chat_history keeps and
    counts, is given no block at all. *)
Theorem string_roles_are_not_rendered (c : str) :
  render_message {| role := JStr (py "1"); content := c |} = [user_block c]
  /\ render_message {| role := JInt 1; content := c |} = [user_block c]
  /\ render_message {| role := JStr (py "2"); content := c |} = [assistant_block c]
  /\ render_message {| role := JInt 2; content := c |} = [assistant_block c]
  /\ render_message {| role := JStr (py "user"); content := c |} = []
  /\ render_message {| role := JStr (py "assistant"); content := c |} = []
  /\ in_user_roles (JStr (py "user")) = true
  /\ in_assistant_roles (JStr (py "assistant")) = true.
Proof. repeat split; reflexivity. Qed.

(** A message [{"isUser": true, "text": "hi"}] is read as a user message
    with the role "user"... *)
Example is_user_flag_session :
  build_session (H := example_runtime) en
    (JObj [(py "title", JStr (py "T"));
           (py "conversation",
            JArr [JObj [(py "isUser", JBool true); (py "text", JStr (py "hi"))]])])
  = Returns is_user_session.
Proof. vm_compute. reflexivity. Qed.

(** ... and the transcript of its session is empty, while the summary of
    the same session shows it. *)
Example is_user_session_transcript :
  create_html_content (H := example_runtime) en [is_user_session] (py "current") = []
  /\ summary_session (H := example_runtime) en is_user_session
     = [session_block (py "T (Total 1 user questions)") [user_block (py "hi")]].
Proof. split; vm_compute; reflexivity. Qed.

(** ** Where a title ends up in the document *)

Lemma startswith_split (s sub : str) :
  startswith s sub = true -> exists post, s = sub ++ post.
Proof.
  revert s. induction sub as [|a sub IH]; intros s Hs.
  - now exists s.
  - destruct s as [|b s]; simpl in Hs; [discriminate|].
    apply andb_true_iff in Hs as [Hab Hs]. apply N.eqb_eq in Hab. subst b.
    destruct (IH s Hs) as (post & ->). now exists post.
Qed.

Lemma contains_split (s sub : str) :
  contains s sub = true -> exists pre post, s = pre ++ sub ++ post.
Proof.
  induction s as [|c s IH]; cbn [contains]; intros Hs.
  - rewrite orb_false_r in Hs. apply startswith_split in Hs as (post & ->).
    now exists [], post.
  - apply orb_true_iff in Hs as [Hs | Hs].
    + apply startswith_split in Hs as (post & ->). now exists [], post.
    + destruct (IH Hs) as (pre & post & ->). now exists (c :: pre), post.
Qed.

Lemma contains_trans (a b c : str) :
  contains a b = true -> contains b c = true -> contains a c = true.
Proof.
  intros Hab Hbc.
  apply contains_split in Hab as (p & q & ->).
  apply contains_split in Hbc as (p' & q' & ->).
  replace (p ++ (p' ++ c ++ q') ++ q) with ((p ++ p') ++ c ++ (q' ++ q))
    by (now rewrite <- !app_assoc).
  apply contains_app.
Qed.

Lemma contains_refl (s : str) : contains s s = true.
Proof.
  apply contains_startswith. rewrite <- (app_nil_r s) at 1. apply startswith_app.
Qed.

(** The block of a session shows its header. *)
Lemma session_block_header (header : str) (session_content : list str) :
  contains (session_block header session_content) header = true.
Proof.
  unfold session_block.
  eapply contains_join; [right; right; left; reflexivity|].
  apply contains_prefixed, contains_prefixed, contains_prefixed,
    contains_prefixed, contains_prefixed, contains_prefixed.
  apply contains_suffixed, contains_refl.
Qed.

(** The document shows what its content shows, and what its page title
    shows. *)
Lemma template_shows_content (L : Locale) (page_title content x : str) :
  contains content x = true ->
  contains (HTML_TEMPLATE_format L page_title content) x = true.
Proof.
  intros Hx. unfold HTML_TEMPLATE_format.
  eapply contains_join with (p := py "        " ++ content).
  - do 78 right. left. reflexivity.
  - now apply contains_prefixed.
Qed.

Lemma template_shows_title (L : Locale) (page_title content x : str) :
  contains page_title x = true ->
  contains (HTML_TEMPLATE_format L page_title content) x = true.
Proof.
  intros Hx. unfold HTML_TEMPLATE_format.
  eapply contains_join with (p := py "    <title>" ++ page_title ++ py "</title>").
  - do 5 right. left. reflexivity.
  - now apply contains_prefixed, contains_suffixed.
Qed.

Section Titles.
Context `{Builtins} (L : Locale).

(** Outside the mode current the header of a session starts with its
    title, as [str] prints it. *)
Lemma session_header_title (mode : str) (s : session) :
  str_eqb mode (py "current") = false ->
  contains (session_header L mode s) (py_str (title s)) = true.
Proof.
  intros Hm. unfold session_header.
  destruct (str_in mode [py "current"; py "all"]) eqn:Hin.
  - rewrite Hm.
    destruct (str_eqb mode (py "all")) eqn:Hall.
    + apply contains_startswith, startswith_app.
    + unfold str_in in Hin. simpl in Hin. rewrite Hm, Hall in Hin.
      discriminate Hin.
  - apply contains_startswith, startswith_app.
Qed.

Lemma render_session_block (mode : str) (s : session) :
  flat_map render_message (messages s) <> [] ->
  render_session L mode s =
    [session_block (session_header L mode s)
       (flat_map render_message (messages s))].
Proof.
  intros Hne. unfold render_session.
  destruct (messages s) as [|m ms]; [now destruct Hne|].
  destruct (flat_map render_message (m :: ms)); [now destruct Hne|].
  reflexivity.
Qed.

Lemma create_html_content_shows (sessions : list session) (mode : str)
    (s : session) (x : str) :
  In s sessions ->
  flat_map render_message (messages s) <> [] ->
  contains (session_header L mode s) x = true ->
  contains (create_html_content L sessions mode) x = true.
Proof.
  intros Hin Hne Hx. unfold create_html_content.
  eapply contains_join.
  - apply in_or_app. right. apply in_flat_map. exists s. split; [exact Hin|].
    rewrite (render_session_block mode s Hne). left. reflexivity.
  - eapply contains_trans; [apply session_block_header | exact Hx].
Qed.
End Titles.

(** A title with an HTML metacharacter is not found in its escaped form in
    the document of the mode all. *)
Lemma escaped_title_not_in_document :
  contains
    (HTML_TEMPLATE_format en (title_all en)
       (create_html_content (H := example_runtime) en [angle_session] (py "all")))
    (escape_html (py "a<b")) = false.
Proof. vm_compute. reflexivity. Qed.

(** Nor is every title in the content: the session of [is_user_session],
    whose messages are given no block, is left out of the mode all, and
    the content of the mode current shows no title. *)
Example unrendered_session_title_missing :
  contains
    (create_html_content (H := example_runtime) en
       [{| composerId := JStr []; version := JInt 0; title := JStr (py "Zq");
           messages := [{| role := JStr (py "user"); content := py "hi" |}];
           user_questions := 1; chat_count := 1 |}] (py "all"))
    (py "Zq") = false
  /\ contains
       (create_html_content (H := example_runtime) en
          [{| composerId := JStr []; version := JInt 0; title := JStr (py "Zq");
              messages := [{| role := JInt 1; content := py "hi" |}];
              user_questions := 1; chat_count := 1 |}] (py "current"))
       (py "Zq") = false.
Proof. split; vm_compute; reflexivity. Qed.

(** In the document of the mode all, every session with a message the
    renderer emits shows its title as [str] prints it, with no escaping. *)
Lemma all_mode_titles_are_raw `{Builtins} (L : Locale)
    (sessions : list session) (s : session) :
  In s sessions ->
  flat_map render_message (messages s) <> [] ->
  contains
    (HTML_TEMPLATE_format L (title_all L)
       (create_html_content L sessions (py "all")))
    (py_str (title s)) = true.
Proof.
  intros Hin Hne. apply template_shows_content.
  apply (create_html_content_shows L sessions (py "all") s); auto.
  now apply session_header_title.
Qed.

(** C5, where the code departs from it: a record with the title [a<b] and
    a message [x<y] is exported with its message escaped and its title
    not. In the mode all the document shows the header with the raw title
    and nowhere the escaped one; in the mode current the raw title is in
    the [<title>] and [<h1>] of the page. The text-safety transform that
    the renderer applies to every content is not applied to the title
    interpolated beside it. *)
Theorem title_is_written_unescaped :
  snd (main (H := angle_runtime) en angle_candidate
         [py "chat_export.py"; py "all"] empty_fs) = 0%Z
  /\ written
       (fst (main (H := angle_runtime) en angle_candidate
               [py "chat_export.py"; py "all"] empty_fs))
     = [(py "/home/u/Downloads/cursor-chat-history/export/All chats 0102_0304.html",
         angle_document_all)]
  /\ contains angle_document_all (py ">a<b (Total 1 conversations)</div>") = true
  /\ contains angle_document_all (escape_html (py "a<b")) = false
  /\ contains angle_document_all (py ">x&lt;y</div>") = true
  /\ contains angle_document_all (py "x<y") = false
  /\ written
       (fst (main (H := angle_runtime) en angle_candidate
               [py "chat_export.py"; py "current"] empty_fs))
     = [(py "/home/u/Downloads/cursor-chat-history/export/chat a_b 0102_0304.html",
         angle_document_current)]
  /\ contains angle_document_current (py "<title>a<b - Chat History</title>") = true
  /\ contains angle_document_current (py "<h1>a<b - Chat History</h1>") = true
  /\ contains angle_document_current (escape_html (py "a<b")) = false.
Proof. repeat split; vm_compute; reflexivity. Qed.

(** ** Claims on main *)

(** An export that raises ends the process with status 1. *)
Lemma export_raises_exit_status `{Builtins} (L : Locale) (E : Env)
    (argv0 mode : str) (db_paths : list str) (w w' : fs) (e : str) :
  str_in mode valid_modes = true ->
  new_exporter E = Returns db_paths ->
  export L E mode db_paths w = (w', Raises e) ->
  main L E [argv0; mode] w = (w', 1%Z).
Proof. intros Hm Hn He. unfold main. now rewrite Hm, Hn, He. Qed.

(** C1, where the code departs from it: on a valid mode, when the export
    returns no output file, main returns after its message and the process
    ends with status 0, not with the status 1 of an export that raises. *)
Theorem no_output_exit_status `{Builtins} (L : Locale) (E : Env)
    (argv0 mode : str) (db_paths : list str) (w w' : fs) :
  str_in mode valid_modes = true ->
  new_exporter E = Returns db_paths ->
  export L E mode db_paths w = (w', Returns None) ->
  main L E [argv0; mode] w = (w', 0%Z).
Proof. intros Hm Hn He. unfold main. now rewrite Hm, Hn, He. Qed.

(** The theorem at [chat_export.py all] in a run that finds no database. *)
Lemma no_output_exit_status_witness :
  main (H := example_runtime) en no_database [py "chat_export.py"; py "all"] empty_fs
  = (empty_fs, 0%Z).
Proof.
  apply (no_output_exit_status (H := example_runtime) en no_database
           (py "chat_export.py") (py "all") [] empty_fs empty_fs);
    reflexivity.
Defined.

(** With no session found, each of the four exports returns no file. *)
Lemma export_without_sessions `{Builtins} (L : Locale) (E : Env) (mode : str)
    (db_paths : list str) (w : fs) :
  snd (read_chat_history L E db_paths w) = [] ->
  export L E mode db_paths w = (fst (read_chat_history L E db_paths w), Returns None).
Proof.
  intros Hs. unfold export, export_current_chat, export_all_chats,
    export_current_summary, export_summary.
  destruct (read_chat_history L E db_paths w) as [w' sessions]. simpl in *.
  subst sessions. repeat destruct (str_eqb _ _); reflexivity.
Qed.

(** ** Claims on the scratch copies *)

Section Scratch.
Context `{Builtins} (L : Locale) (E : Env).

(** One candidate: whatever happened to it, [os.remove] is called once,
    on its scratch path, as the last file operation, and the path is
    free afterwards; no other file is touched. *)
Lemma process_db_removes_scratch (st : fs * list session) (db_path : str) :
  remove_calls (fst (process_db L E st db_path))
    = remove_calls (fst st) ++ [temp_db_path E (snd st)]
  /\ files (fst (process_db L E st db_path))
     = files (fst st) ∖ {[temp_db_path E (snd st)]}
  /\ temp_db_path E (snd st) ∉ files (fst (process_db L E st db_path)).
Proof.
  destruct st as [w all]. unfold process_db.
  destruct (databases E db_path) as [[|] | | rows]; simpl;
    (split; [reflexivity|]); split; set_solver.
Qed.

Lemma fold_process_db_scratch (db_paths : list str) (st : fs * list session) :
  exists tmps : list str,
    remove_calls (fst (fold_left (process_db L E) db_paths st))
      = remove_calls (fst st) ++ tmps
    /\ length tmps = length db_paths
    /\ files (fst (fold_left (process_db L E) db_paths st))
       = files (fst st) ∖ list_to_set tmps.
Proof.
  revert st. induction db_paths as [|p ps IH]; intros st; simpl.
  - exists []. rewrite app_nil_r. repeat split. set_solver.
  - destruct (IH (process_db L E st p)) as (tmps & Hcalls & Hlen & Hfiles).
    destruct (process_db_removes_scratch st p) as (Hc1 & Hf1 & _).
    exists (temp_db_path E (snd st) :: tmps).
    rewrite Hcalls, Hc1, <- app_assoc. split; [reflexivity|].
    split; [simpl; now rewrite Hlen|].
    rewrite Hfiles, Hf1. set_solver.
Qed.
End Scratch.

(** C9: for every candidate database and whatever happens to it (records
    extracted, malformed records, a copy or a database that cannot be
    read), the scratch copy is removed by exactly one [os.remove] call
    before the next candidate, which leaves every other file alone; after
    a whole pass one such call was made per candidate and none of the
    scratch paths is left. *)
Theorem scratch_copies_removed `{Builtins} (L : Locale) (E : Env) :
  (forall (st : fs * list session) (db_path : str),
     remove_calls (fst (process_db L E st db_path))
       = remove_calls (fst st) ++ [temp_db_path E (snd st)]
     /\ files (fst (process_db L E st db_path))
        = files (fst st) ∖ {[temp_db_path E (snd st)]}
     /\ temp_db_path E (snd st) ∉ files (fst (process_db L E st db_path)))
  /\ (forall (db_paths : list str) (w : fs),
        exists tmps : list str,
          remove_calls (fst (read_chat_history L E db_paths w))
            = remove_calls w ++ tmps
          /\ length tmps = length db_paths
          /\ files (fst (read_chat_history L E db_paths w))
             = files w ∖ list_to_set tmps
          /\ Forall (fun p => p ∉ files (fst (read_chat_history L E db_paths w)))
               tmps).
Proof.
  split.
  - apply process_db_removes_scratch.
  - intros db_paths w. unfold read_chat_history.
    destruct (fold_process_db_scratch L E db_paths (w, [])) as (tmps & Hc & Hl & Hf).
    exists tmps. repeat split; try assumption.
    apply Forall_forall. intros p Hp. rewrite Hf. set_solver.
Qed.

(** The pass over [three_candidates] (a copy that fails half-way, a file
    that is no database, a database with a good and a malformed record)
    from a directory that already holds a stale scratch file: three calls,
    and the directory is empty afterwards. *)
Example three_candidates_cleanup :
  let w := {| files := {[py "/tmp/temp_state_0.vscdb"]};
              remove_calls := []; written := [] |} in
  let w' := fst (read_chat_history (H := example_runtime) en three_candidates
                   [py "a"; py "b"; py "c"] w) in
  remove_calls w' = [py "/tmp/temp_state_0.vscdb"; py "/tmp/temp_state_0.vscdb";
                     py "/tmp/temp_state_0.vscdb"]
  /\ elements (files w') = [].
Proof. split; vm_compute; reflexivity. Qed.

(** * Further properties of the code *)

(** ** escape_html *)

Lemma replace_app (old : char) (new a b : str) :
  replace old new (a ++ b) = replace old new a ++ replace old new b.
Proof. unfold replace. apply flat_map_app. Qed.

Lemma escape_html_app (a b : str) :
  escape_html (a ++ b) = escape_html a ++ escape_html b.
Proof. unfold escape_html. now rewrite !replace_app. Qed.

Lemma escape_html_char (c : char) : escape_html [c] = escape_char c.
Proof.
  unfold escape_html, escape_char, replace. simpl.
  destruct (c =? 38) eqn:E38; [reflexivity|]. simpl.
  destruct (c =? 60) eqn:E60; [reflexivity|]. simpl.
  destruct (c =? 62) eqn:E62; reflexivity.
Qed.

Lemma escape_html_cons (c : char) (s : str) :
  escape_html (c :: s) = escape_char c ++ escape_html s.
Proof.
  change (c :: s) with ([c] ++ s). now rewrite escape_html_app, escape_html_char.
Qed.

Lemma escape_char_no (x c : char) :
  x = 60 \/ x = 62 \/ x = 10 ->
  c <> 10 \/ x <> 10 ->
  existsb (N.eqb x) (escape_char c) = false.
Proof.
  intros Hx Hc. unfold escape_char.
  destruct (c =? 38) eqn:E38.
  { destruct Hx as [-> | [-> | ->]]; reflexivity. }
  destruct (c =? 60) eqn:E60.
  { destruct Hx as [-> | [-> | ->]]; reflexivity. }
  destruct (c =? 62) eqn:E62.
  { destruct Hx as [-> | [-> | ->]]; reflexivity. }
  simpl. rewrite orb_false_r.
  apply N.eqb_neq in E60, E62. apply N.eqb_neq.
  destruct Hx as [-> | [-> | ->]]; destruct Hc; congruence.
Qed.

(** X1: the three replacements act as one pass over the characters (an
    ampersand that the pass writes is not escaped again), and what comes out
    holds no [<] and no [>]. *)
Theorem escape_html_one_pass (text : str) :
  escape_html text = flat_map escape_char text
  /\ existsb (N.eqb 60) (escape_html text) = false
  /\ existsb (N.eqb 62) (escape_html text) = false.
Proof.
  induction text as [|c text (IH & Hlt & Hgt)]; [now repeat split|].
  rewrite escape_html_cons. split; [|split].
  - simpl. now rewrite IH.
  - rewrite existsb_app, Hlt, orb_false_r.
    apply escape_char_no; [now left | now right].
  - rewrite existsb_app, Hgt, orb_false_r.
    apply escape_char_no; [now right; left | now right].
Qed.

Lemma escape_char_nonempty (c : char) : escape_char c <> [].
Proof.
  unfold escape_char.
  destruct (c =? 38); [discriminate|].
  destruct (c =? 60); [discriminate|].
  destruct (c =? 62); discriminate.
Qed.

Lemma escape_char_head (x y : char) (s t : str) :
  escape_char x ++ s = escape_char y ++ t -> x = y /\ s = t.
Proof.
  unfold escape_char.
  destruct (N.eqb_spec x 38) as [-> | Hx38];
    [|destruct (N.eqb_spec x 60) as [-> | Hx60];
      [|destruct (N.eqb_spec x 62) as [-> | Hx62]]];
  (destruct (N.eqb_spec y 38) as [-> | Hy38];
    [|destruct (N.eqb_spec y 60) as [-> | Hy60];
      [|destruct (N.eqb_spec y 62) as [-> | Hy62]]]);
  intros Heq; vm_compute in Heq;
  first [ discriminate Heq
        | injection Heq; intros; subst; first [ now split | congruence ] ].
Qed.

(** X2: escaping loses nothing: two texts with the same escaped form are
    the same text. *)
Theorem escape_html_injective (a b : str) :
  escape_html a = escape_html b -> a = b.
Proof.
  revert b. induction a as [|x a IH]; intros [|y b].
  - reflexivity.
  - rewrite escape_html_cons. simpl. intros Heq. symmetry in Heq.
    apply app_eq_nil in Heq as [Heq _]. now apply escape_char_nonempty in Heq.
  - rewrite escape_html_cons. simpl. intros Heq.
    apply app_eq_nil in Heq as [Heq _]. now apply escape_char_nonempty in Heq.
  - rewrite !escape_html_cons. intros Heq.
    apply escape_char_head in Heq as [-> Heq]. f_equal. now apply IH.
Qed.

(** The theorem at two spellings of one text. *)
Lemma escape_html_injective_witness :
  escape_html (py "a<b&c") = escape_html (py "a<" ++ py "b&c")
  /\ py "a<b&c" = py "a<" ++ py "b&c".
Proof.
  split; [reflexivity|].
  apply (escape_html_injective (py "a<b&c") (py "a<" ++ py "b&c")). reflexivity.
Defined.

(** ** The scan of process_code_blocks *)

Lemma scan_plain_line (l : str) (st : code_scan) :
  is_fence l = false ->
  in_code_block st = false ->
  scan_line st l =
  {| processed_lines := processed_lines st ++ [l];
     in_code_block := false;
     code_block := code_block st |}.
Proof. unfold is_fence, scan_line. now intros -> ->. Qed.

Lemma scan_code_line (l : str) (st : code_scan) :
  is_fence l = false ->
  in_code_block st = true ->
  scan_line st l =
  {| processed_lines := processed_lines st;
     in_code_block := true;
     code_block := code_block st ++ [l ++ nl] |}.
Proof. unfold is_fence, scan_line. now intros -> ->. Qed.

Lemma scan_plain_lines (ls : list str) (st : code_scan) :
  Forall (fun l => is_fence l = false) ls ->
  in_code_block st = false ->
  fold_left scan_line ls st =
  {| processed_lines := processed_lines st ++ ls;
     in_code_block := false;
     code_block := code_block st |}.
Proof.
  revert st. induction ls as [|l ls IH]; intros st Hls Hin.
  - destruct st. simpl in *. subst. now rewrite app_nil_r.
  - apply Forall_cons in Hls as [Hl Hls]. cbn [fold_left].
    rewrite (scan_plain_line l st Hl Hin), IH by (assumption || reflexivity). cbn.
    now rewrite <- app_assoc.
Qed.

Lemma scan_code_lines (ls : list str) (st : code_scan) :
  Forall (fun l => is_fence l = false) ls ->
  in_code_block st = true ->
  fold_left scan_line ls st =
  {| processed_lines := processed_lines st;
     in_code_block := true;
     code_block := code_block st ++ List.map (fun l => l ++ nl) ls |}.
Proof.
  revert st. induction ls as [|l ls IH]; intros st Hls Hin.
  - destruct st. simpl in *. subst. now rewrite app_nil_r.
  - apply Forall_cons in Hls as [Hl Hls]. cbn [fold_left].
    rewrite (scan_code_line l st Hl Hin), IH by (assumption || reflexivity). cbn.
    now rewrite <- app_assoc.
Qed.

Lemma scan_fence_line (l : str) (st : code_scan) :
  is_fence l = true ->
  scan_line st l =
  if in_code_block st then
    {| processed_lines := processed_lines st ++ [pre_block (code_block st)];
       in_code_block := false; code_block := [] |}
  else
    {| processed_lines := processed_lines st; in_code_block := true;
       code_block := code_block st |}.
Proof. unfold is_fence, scan_line. now intros ->. Qed.

(** process_code_blocks on a text that is not empty, by its lines. *)
Lemma process_code_blocks_lines (text : str) :
  text <> [] ->
  process_code_blocks text =
  let st := fold_left scan_line (split 10 (escape_html text))
              {| processed_lines := []; in_code_block := false; code_block := [] |} in
  join (py "<br>")
    (if in_code_block st && match code_block st with [] => false | _ => true end
     then processed_lines st ++ [pre_block (code_block st)]
     else processed_lines st).
Proof. destruct text; [congruence | reflexivity]. Qed.

(** X3: a text none of whose lines is a fence comes out escaped, with
    [<br>] in the place of its line ends. *)
Theorem plain_text_output (text : str) :
  text <> [] ->
  Forall (fun l => is_fence l = false) (split 10 (escape_html text)) ->
  process_code_blocks text = join (py "<br>") (split 10 (escape_html text)).
Proof.
  intros Hne Hplain. rewrite (process_code_blocks_lines text Hne). cbv zeta.
  rewrite (scan_plain_lines (split 10 (escape_html text)))
    by (assumption || reflexivity).
  cbn [in_code_block processed_lines code_block andb app]. reflexivity.
Qed.

(** The theorem at a text of two lines. *)
Lemma plain_text_output_witness :
  process_code_blocks (py "a<b" ++ nl ++ py "c & d")
  = py "a&lt;b<br>c &amp; d".
Proof.
  rewrite (plain_text_output (py "a<b" ++ nl ++ py "c & d")).
  - vm_compute. reflexivity.
  - discriminate.
  - vm_compute. repeat constructor.
Defined.

(** X4: a block between two fences comes out, at its place among the
    other lines, as one preformatted block that holds its lines, each
    followed by a line end; the text of the two fence lines is dropped. *)
Theorem closed_block_output (text : str) (before body after : list str)
    (opening closing : str) :
  text <> [] ->
  split 10 (escape_html text)
    = before ++ [opening] ++ body ++ [closing] ++ after ->
  Forall (fun l => is_fence l = false) before ->
  Forall (fun l => is_fence l = false) body ->
  Forall (fun l => is_fence l = false) after ->
  is_fence opening = true ->
  is_fence closing = true ->
  process_code_blocks text
  = join (py "<br>")
      (before ++ [pre_block (List.map (fun l => l ++ nl) body)] ++ after).
Proof.
  intros Hne Hsplit Hbefore Hbody Hafter Hopen Hclose.
  rewrite (process_code_blocks_lines text Hne), Hsplit. cbv zeta.
  rewrite !fold_left_app. cbn [fold_left].
  rewrite (scan_plain_lines before) by (assumption || reflexivity).
  rewrite (scan_fence_line opening) by assumption.
  cbn [in_code_block processed_lines code_block].
  rewrite (scan_code_lines body) by (assumption || reflexivity).
  rewrite (scan_fence_line closing) by assumption.
  cbn [in_code_block processed_lines code_block].
  rewrite (scan_plain_lines after) by (assumption || reflexivity).
  cbn [in_code_block processed_lines code_block andb app].
  now rewrite <- app_assoc.
Qed.

(** The theorem at a text with a fenced line between two plain lines. *)
Lemma closed_block_output_witness :
  process_code_blocks
    (py "see:" ++ nl ++ py "```python" ++ nl ++ py "x<y" ++ nl ++ py "```"
     ++ nl ++ py "done")
  = py "see:<br><pre><code>x&lt;y" ++ nl ++ py "</code></pre><br>done".
Proof.
  rewrite (closed_block_output _ [py "see:"] [py "x&lt;y"] [py "done"]
             (py "```python") (py "```")).
  - vm_compute. reflexivity.
  - discriminate.
  - vm_compute. reflexivity.
  - repeat constructor.
  - repeat constructor.
  - repeat constructor.
  - reflexivity.
  - reflexivity.
Defined.

(** X5: a block whose closing fence is missing is still emitted, at the
    end, when it holds at least one line; an opening fence that nothing
    follows leaves no trace. *)
Theorem unclosed_block_output (text : str) (before body : list str)
    (opening : str) :
  text <> [] ->
  split 10 (escape_html text) = before ++ [opening] ++ body ->
  Forall (fun l => is_fence l = false) before ->
  Forall (fun l => is_fence l = false) body ->
  is_fence opening = true ->
  process_code_blocks text
  = join (py "<br>")
      (before ++ match body with
                 | [] => []
                 | _ => [pre_block (List.map (fun l => l ++ nl) body)]
                 end).
Proof.
  intros Hne Hsplit Hbefore Hbody Hopen.
  rewrite (process_code_blocks_lines text Hne), Hsplit. cbv zeta.
  rewrite !fold_left_app. cbn [fold_left].
  rewrite (scan_plain_lines before) by (assumption || reflexivity).
  rewrite (scan_fence_line opening) by assumption.
  cbn [in_code_block processed_lines code_block].
  rewrite (scan_code_lines body) by (assumption || reflexivity).
  cbn [in_code_block processed_lines code_block andb].
  destruct body as [|b body]; cbn [List.map app];
    [now rewrite app_nil_r | reflexivity].
Qed.

(** The theorem at a text that ends inside a block. *)
Lemma unclosed_block_output_witness :
  process_code_blocks (py "see:" ++ nl ++ py "```" ++ nl ++ py "x")
  = py "see:<br><pre><code>x" ++ nl ++ py "</code></pre>".
Proof.
  rewrite (unclosed_block_output _ [py "see:"] [py "x"] (py "```")).
  - vm_compute. reflexivity.
  - discriminate.
  - vm_compute. reflexivity.
  - repeat constructor.
  - repeat constructor.
  - reflexivity.
Defined.

(** ** The messages of a conversation *)

Section Messages.
Context `{Builtins} (L : Locale).

Lemma for_each_skip (msgs : list json) (st : session * option str) :
  Forall (fun m => is_dict m = false) msgs ->
  for_each (process_msg L) msgs st = Returns st.
Proof.
  induction msgs as [|m msgs IH]; intros Hm; [reflexivity|].
  apply Forall_cons in Hm as [Hm Hms]. cbn [for_each].
  destruct m; try discriminate Hm; cbn; now apply IH.
Qed.

(** The only exception of process_msg is the AttributeError of [strip]. *)
Lemma process_msg_raises (st : session * option str) (m : json) (e : str) :
  process_msg L st m = Raises e -> e = py "AttributeError".
Proof.
  unfold process_msg. destruct m as [| | | | | | d]; try discriminate.
  destruct (truthy (resolve_role d)); [|discriminate].
  unfold is_blank. destruct (negb (truthy (resolve_content d))).
  - cbn. destruct (final_content L d true) as [| | | | [|c s] | |]; discriminate.
  - destruct (resolve_content d) as [| | | | s | |]; cbn;
      try (now intros [= <-]).
    destruct (final_content L d _) as [| | | | [|c s'] | |]; discriminate.
Qed.

Lemma for_each_raises (msgs : list json) (st : session * option str) (e : str) :
  for_each (process_msg L) msgs st = Raises e -> e = py "AttributeError".
Proof.
  revert st. induction msgs as [|m msgs IH]; intros st; [discriminate|].
  cbn [for_each]. destruct (process_msg L st m) as [st'|e'] eqn:Hm; cbn.
  - apply IH.
  - intros [= <-]. now apply process_msg_raises in Hm.
Qed.

Lemma process_msg_non_str (st : session * option str) (d : list (str * json)) :
  truthy (resolve_content d) = true ->
  (forall s, resolve_content d <> JStr s) ->
  process_msg L st (JObj d) = Raises (py "AttributeError").
Proof.
  intros Ht Hns. unfold process_msg. rewrite resolve_role_truthy.
  unfold is_blank. rewrite Ht. cbn.
  destruct (resolve_content d) as [| | | | s | |]; try reflexivity.
  now destruct (Hns s).
Qed.

Lemma for_each_non_str (msgs : list json) (st : session * option str)
    (d : list (str * json)) :
  In (JObj d) msgs ->
  truthy (resolve_content d) = true ->
  (forall s, resolve_content d <> JStr s) ->
  for_each (process_msg L) msgs st = Raises (py "AttributeError").
Proof.
  intros Hin Ht Hns. revert st.
  induction msgs as [|m msgs IH]; intros st; [destruct Hin|].
  cbn [for_each]. destruct (process_msg L st m) as [st'|e] eqn:Hm; cbn.
  - destruct Hin as [-> | Hin]; [|now apply IH].
    rewrite (process_msg_non_str st d Ht Hns) in Hm. discriminate Hm.
  - apply process_msg_raises in Hm. now subst e.
Qed.
End Messages.

(** X6: entries of a conversation that are no dicts (strings, numbers,
    lists, null) are passed over without an error: the loop does on the
    whole list what it does on its dicts alone; and a conversation that is
    a str or a dict instead of a list gives no message at all. *)
Theorem non_dict_entries_ignored `{Builtins} (L : Locale) :
  (forall (msgs : list json) (st : session * option str),
     for_each (process_msg L) msgs st
     = for_each (process_msg L) (List.filter is_dict msgs) st)
  /\ (forall (conversation : json) (st : session * option str),
        (exists s, conversation = JStr s) \/ (exists d, conversation = JObj d) ->
        exists items,
          iterate conversation = Returns items
          /\ for_each (process_msg L) items st = Returns st).
Proof.
  split.
  - induction msgs as [|m msgs IH]; intros st; [reflexivity|].
    cbn [List.filter for_each].
    destruct m; cbn [is_dict for_each]; try (cbn; apply IH).
    destruct (process_msg L st (JObj fields)); cbn; [apply IH | reflexivity].
  - intros conversation st [(s & ->) | (d & ->)]; eexists;
      (split; [reflexivity|]); apply for_each_skip, Forall_forall;
      intros m Hm; apply list_elem_of_In, in_map_iff in Hm as (x & <- & _);
      reflexivity.
Qed.

(** X7: one message whose content is true and not a str (a list of parts,
    a number, an object) raises in the middle of the loop, and the whole
    record is lost with it: no session is built, and the record adds
    nothing to the sessions, whatever its other messages are. *)
Theorem non_str_content_drops_record `{Builtins} (L : Locale)
    (data d : list (str * json)) (msgs : list json) :
  get_default data (py "conversation") (JArr []) = JArr msgs ->
  In (JObj d) msgs ->
  truthy (resolve_content d) = true ->
  (forall s, resolve_content d <> JStr s) ->
  build_session L (JObj data) = Raises (py "AttributeError")
  /\ forall (key value : sql_value) (all : list session),
       decode_record value = Returns (JObj data) ->
       process_records L all [(key, value)] = all.
Proof.
  intros Hconv Hin Ht Hns.
  assert (Hb : build_session L (JObj data) = Raises (py "AttributeError")).
  { unfold build_session. rewrite Hconv. cbn [iterate]. cbn.
    now rewrite (for_each_non_str L msgs _ d Hin Ht Hns). }
  split; [exact Hb|].
  intros key value all Hdec. unfold process_records. cbn [fold_left snd].
  unfold process_record. rewrite Hdec. unfold mbind, outcome_bind.
  now rewrite Hb.
Qed.

(** The theorem at a record whose second message has a list as content. *)
Lemma non_str_content_drops_record_witness :
  build_session (H := example_runtime) en
    (JObj [(py "conversation",
            JArr [mk_msg (JInt 1) "q";
                  JObj [(py "role", JInt 2);
                        (py "content", JArr [JStr (py "part")])]])])
  = Raises (py "AttributeError").
Proof.
  apply (non_str_content_drops_record (H := example_runtime) en
           [(py "conversation",
             JArr [mk_msg (JInt 1) "q";
                   JObj [(py "role", JInt 2);
                         (py "content", JArr [JStr (py "part")])]])]
           [(py "role", JInt 2); (py "content", JArr [JStr (py "part")])]
           [mk_msg (JInt 1) "q";
            JObj [(py "role", JInt 2);
                  (py "content", JArr [JStr (py "part")])]]).
  - reflexivity.
  - right. left. reflexivity.
  - reflexivity.
  - discriminate.
Defined.

(** X8: a message whose content is missing or false (no content, [""],
    null, 0, an empty list) is dropped, with no error, unless it is a user
    message with an attachment marker: an assistant message that only
    carries attachments is lost. *)
Theorem empty_content_dropped `{Builtins} (L : Locale)
    (st : session * option str) (d : list (str * json)) :
  truthy (resolve_content d) = false ->
  has_attachment d = false \/ in_user_roles (resolve_role d) = false ->
  process_msg L st (JObj d) = Returns st.
Proof.
  intros Hf Hno.
  assert (Hb : is_blank (resolve_content d) = Returns true)
    by (unfold is_blank; now rewrite Hf).
  rewrite (process_msg_dict L st d true Hb). unfold final_content.
  assert (Hcond : true && has_attachment d && in_user_roles (resolve_role d) = false).
  { destruct Hno as [-> | ->]; [reflexivity | apply andb_false_r]. }
  rewrite Hcond.
  destruct (resolve_content d) as [| | | | [|c s] | |]; try reflexivity.
  discriminate Hf.
Qed.

(** The theorem at an assistant message with an attachment and no text. *)
Lemma empty_content_dropped_witness :
  let d := [(py "role", JInt 2); (py "content", JStr []);
            (py "attachments", JArr [JStr (py "x.png")])] in
  let s0 := {| composerId := JStr []; version := JInt 0; title := JNull;
               messages := []; user_questions := 0; chat_count := 0 |} in
  has_attachment (H := example_runtime) d = true
  /\ process_msg (H := example_runtime) en (s0, None) (JObj d) = Returns (s0, None).
Proof.
  intros d s0. split; [reflexivity|].
  apply (empty_content_dropped (H := example_runtime) en (s0, None) d);
    [reflexivity | right; reflexivity].
Defined.

(** X9: a message of a user or of an assistant (a role that is one of the
    known indicators) whose content is a str that is not empty is always
    kept: with the placeholder when the content is only whitespace and the
    message is a user message with an attachment marker, with its content
    as it is otherwise (a content of blanks included). *)
Theorem nonempty_content_kept `{Builtins} (L : Locale)
    (st : session * option str) (d : list (str * json)) (c : char) (s : str) :
  in_user_roles (resolve_role d) = true
  \/ in_assistant_roles (resolve_role d) = true ->
  resolve_content d = JStr (c :: s) ->
  process_msg L st (JObj d) =
  Returns
    (keep_message st (resolve_role d)
       (if str_eqb (strip (c :: s)) [] && has_attachment d
           && in_user_roles (resolve_role d)
        then attachment_placeholder L else c :: s)).
Proof.
  intros _ Hc.
  assert (Hb : is_blank (resolve_content d) = Returns (str_eqb (strip (c :: s)) []))
    by (rewrite Hc; reflexivity).
  rewrite (process_msg_dict L st d _ Hb). unfold final_content.
  destruct (_ && _ && _).
  - now destruct (placeholder_nonempty L) as (c' & s' & ->).
  - now rewrite Hc.
Qed.

(** The theorem at an assistant message whose content is two blanks. *)
Lemma nonempty_content_kept_witness :
  let d := [(py "role", JInt 2); (py "content", JStr (py "  "))] in
  let s0 := {| composerId := JStr []; version := JInt 0; title := JNull;
               messages := []; user_questions := 0; chat_count := 0 |} in
  messages
    (fst (keep_message (s0, None) (resolve_role d)
            (if str_eqb (strip (py "  ")) []
                && has_attachment (H := example_runtime) d
                && in_user_roles (resolve_role d)
             then attachment_placeholder en else py "  ")))
    = [{| role := JInt 2; content := py "  " |}]
  /\ process_msg (H := example_runtime) en (s0, None) (JObj d)
     = Returns
         (keep_message (s0, None) (resolve_role d)
            (if str_eqb (strip (py "  ")) []
                && has_attachment (H := example_runtime) d
                && in_user_roles (resolve_role d)
             then attachment_placeholder en else py "  ")).
Proof.
  intros d s0. split; [reflexivity|].
  apply (nonempty_content_kept (H := example_runtime) en (s0, None) d 32 [32]);
    [right; reflexivity | reflexivity].
Defined.

(** ** The sessions returned *)

Section Sessions.
Context `{Builtins} (L : Locale).

Lemma process_records_Forall_record (P : session -> Prop) all rows :
  (forall v s, process_record L v = Returns (Some s) -> P s) ->
  Forall P all -> Forall P (process_records L all rows).
Proof.
  intros HP. revert all. unfold process_records.
  induction rows as [|row rows IH]; intros all Hall; cbn [fold_left]; [exact Hall|].
  apply IH. destruct (process_record L (snd row)) as [[s|]|e] eqn:E;
    try exact Hall.
  apply Forall_app. split; [exact Hall|]. constructor; [|constructor].
  eapply HP; eauto.
Qed.

Lemma read_chat_history_Forall_record (P : session -> Prop) (E : Env) db_paths w :
  (forall v s, process_record L v = Returns (Some s) -> P s) ->
  Forall P (snd (read_chat_history L E db_paths w)).
Proof.
  intros HP. unfold read_chat_history.
  assert (Hgen : forall st, Forall P (snd st) ->
            Forall P (snd (fold_left (process_db L E) db_paths st))).
  { induction db_paths as [|p ps IH]; intros st Hst; cbn [fold_left]; [exact Hst|].
    apply IH. destruct st as [w0 all]. unfold process_db.
    destruct (databases E p) as [leftover| |rows]; cbn [snd]; try exact Hst.
    now apply process_records_Forall_record. }
  apply Hgen. constructor.
Qed.

(** What the loop keeps true of the messages and of the question count. *)
Lemma process_msg_messages (st st' : session * option str) (m : json) :
  process_msg L st m = Returns st' ->
  st' = st \/
  exists r c s, truthy r = true /\ st' = keep_message st r (c :: s).
Proof.
  unfold process_msg. destruct m as [| | | | | | d];
    try (intros [= <-]; now left).
  destruct (truthy (resolve_role d)) eqn:Hr; [|intros [= <-]; now left].
  destruct (is_blank (resolve_content d)) as [blank|e]; cbn; [|discriminate].
  destruct (final_content L d blank) as [| | | | [|c s] | |];
    intros [= <-]; try (now left).
  right. eauto.
Qed.
End Sessions.

Section SessionInvariants.
Context `{Builtins} (L : Locale).

(** A property that every kept message preserves holds after the loop. *)
Lemma for_each_invariant (I : session * option str -> Prop) msgs st st' :
  (forall st r c s, truthy r = true -> I st -> I (keep_message st r (c :: s))) ->
  I st -> for_each (process_msg L) msgs st = Returns st' -> I st'.
Proof.
  intros Hkeep. revert st. induction msgs as [|m msgs IH]; intros st Hst.
  - now intros [= <-].
  - cbn [for_each]. destruct (process_msg L st m) as [st1|e] eqn:Hm; cbn;
      [|discriminate].
    apply IH. apply process_msg_messages in Hm as [-> | (r & c & s & Hr & ->)];
      auto.
Qed.

Lemma build_session_invariant (I : session * option str -> Prop) data s :
  (forall st r c s, truthy r = true -> I st -> I (keep_message st r (c :: s))) ->
  (forall s0, messages s0 = [] -> user_questions s0 = 0%nat ->
              chat_count s0 = 0%nat -> I (s0, None)) ->
  build_session L data = Returns s ->
  exists cur, I (s, cur).
Proof.
  intros Hkeep Hinit. unfold build_session.
  destruct data as [| | | | | | d]; try discriminate.
  destruct (iterate _) as [msgs|e]; cbn; [|discriminate].
  destruct (for_each _ _ _) as [[s' cur]|e] eqn:E; cbn; [|discriminate].
  intros [= <-]. exists cur.
  eapply for_each_invariant; [exact Hkeep | | exact E]. now apply Hinit.
Qed.

Lemma process_record_session v s :
  process_record L v = Returns (Some s) ->
  messages s <> [] /\ exists data, build_session L data = Returns s.
Proof.
  unfold process_record.
  destruct (decode_record v) as [data|e]; cbn; [|discriminate].
  destruct (build_session L data) as [s'|e] eqn:E; cbn; [|discriminate].
  destruct (messages s') eqn:Hm; [discriminate|].
  intros [= <-]. split; [now rewrite Hm | eauto].
Qed.
End SessionInvariants.

(** X10: every session read_chat_history returns holds at least one
    message, and each of its messages has a content that is not empty and
    a role that is true. *)
Theorem sessions_hold_messages `{Builtins} (L : Locale) (E : Env)
    (db_paths : list str) (w : fs) :
  Forall
    (fun s =>
       messages s <> []
       /\ Forall (fun m => content m <> [] /\ truthy (role m) = true) (messages s))
    (snd (read_chat_history L E db_paths w)).
Proof.
  apply read_chat_history_Forall_record. intros v s Hv.
  apply process_record_session in Hv as (Hne & data & Hs).
  split; [exact Hne|].
  destruct (build_session_invariant L
              (fun st => Forall (fun m => content m <> [] /\ truthy (role m) = true)
                           (messages (fst st))) data s) as (cur & HI); auto.
  - intros st r c s' Hr Hst. rewrite keep_message_messages.
    apply Forall_app. split; [exact Hst|]. constructor; [|constructor].
    split; [discriminate | exact Hr].
  - intros s0 Hm _ _. cbn. rewrite Hm. constructor.
Qed.

(** X11: in every session read_chat_history returns, user_questions is the
    number of kept messages with a user role, which is the length of the
    list the summary exports draw their questions from; and chat_count
    never exceeds the number of kept messages. *)
Theorem user_questions_counts_user_messages `{Builtins} (L : Locale) (E : Env)
    (db_paths : list str) (w : fs) :
  Forall
    (fun s =>
       user_questions s = length (user_question_contents (messages s))
       /\ (chat_count s <= length (messages s))%nat)
    (snd (read_chat_history L E db_paths w)).
Proof.
  apply read_chat_history_Forall. intros data s Hs.
  destruct (build_session_invariant L
              (fun st =>
                 user_questions (fst st)
                 = length (user_question_contents (messages (fst st)))
                 /\ (chat_count (fst st) <= length (messages (fst st)))%nat)
              data s) as (cur & HI); auto.
  - intros [s0 cur] r c s' _ [Hq Hc]. cbn [fst] in *.
    unfold user_question_contents in *.
    rewrite keep_message_messages. cbn [fst].
    rewrite List.filter_app, !length_map, !length_app in *.
    cbn [List.filter role].
    unfold keep_message.
    destruct (in_user_roles r) eqn:Hu;
      cbn [fst user_questions chat_count length].
    + split; lia.
    + destruct (in_assistant_roles r);
        cbn [fst user_questions chat_count length].
      * destruct (cursor_is cur (py "user")); split; lia.
      * split; lia.
  - intros s0 Hm Hq Hc. cbn. rewrite Hm, Hq, Hc. cbn. split; lia.
Qed.

(** ** Candidates one after the other *)

Section Candidates.
Context `{Builtins} (L : Locale) (E : Env).

Lemma process_records_app all rows :
  process_records L all rows = all ++ process_records L [] rows.
Proof.
  unfold process_records. revert all.
  induction rows as [|row rows IH]; intros all; cbn [fold_left].
  - now rewrite app_nil_r.
  - rewrite IH. rewrite (IH (match process_record L (snd row) with
                             | Returns (Some s) => [] ++ [s]
                             | _ => []
                             end)).
    destruct (process_record L (snd row)) as [[s|]|e];
      now rewrite ?app_nil_r, <- ?app_assoc.
Qed.

Lemma fold_process_db_sessions db_paths (st : fs * list session) :
  snd (fold_left (process_db L E) db_paths st)
  = snd st ++ flat_map (sessions_of L E) db_paths.
Proof.
  revert st. induction db_paths as [|p ps IH]; intros [w all]; cbn [fold_left flat_map].
  - cbn. now rewrite app_nil_r.
  - rewrite IH. unfold process_db, sessions_of.
    destruct (databases E p) as [leftover| |rows]; cbn [snd];
      rewrite ?app_nil_l; try reflexivity.
    now rewrite process_records_app, <- app_assoc.
Qed.

Lemma fold_process_db_written db_paths (st : fs * list session) :
  written (fst (fold_left (process_db L E) db_paths st)) = written (fst st).
Proof.
  revert st. induction db_paths as [|p ps IH]; intros [w all]; cbn [fold_left];
    [reflexivity|].
  rewrite IH. unfold process_db.
  destruct (databases E p) as [[|]| |rows]; reflexivity.
Qed.
End Candidates.

(** X12: the sessions read_chat_history returns are those of the first
    candidate, then those of the second, and so on: a candidate that
    cannot be copied or queried gives none and takes nothing away from the
    others, and the result does not depend on the files present. *)
Theorem sessions_by_candidate `{Builtins} (L : Locale) (E : Env)
    (db_paths : list str) (w : fs) :
  snd (read_chat_history L E db_paths w) = flat_map (sessions_of L E) db_paths.
Proof. unfold read_chat_history. now rewrite fold_process_db_sessions. Qed.

(** ** The exports and main, as a whole *)

Section Outcomes.
Context `{Builtins} (L : Locale) (E : Env).

End Outcomes.

(** X13: any call that does not give exactly one argument out of current,
    all, summary and current-summary ends with status 1 before anything is
    read or written. *)
Theorem main_rejects_bad_arguments `{Builtins} (L : Locale) (E : Env)
    (argv : list str) (w : fs) :
  (forall argv0 mode, argv = [argv0; mode] -> str_in mode valid_modes = false) ->
  main L E argv w = (w, 1%Z).
Proof.
  intros Hbad. unfold main.
  destruct argv as [|a [|m [|x rest]]]; try reflexivity.
  now rewrite (Hbad a m eq_refl).
Qed.

(** The theorem at a call with an unknown mode. *)
Lemma main_rejects_bad_arguments_witness :
  main (H := example_runtime) en three_candidates
    [py "chat_export.py"; py "export"] empty_fs = (empty_fs, 1%Z).
Proof.
  apply (main_rejects_bad_arguments (H := example_runtime) en three_candidates
           [py "chat_export.py"; py "export"] empty_fs).
  intros argv0 mode [= <- <-]. reflexivity.
Defined.

Section MainFacts.
Context `{Builtins} (L : Locale) (E : Env).

End MainFacts.



(** ** File names and titles *)

Section SafeTitle.
Context `{Builtins}.

Lemma bind_Returns {A B} (a : A) (k : A -> outcome B) :
  mbind k (Returns a) = k a.
Proof. reflexivity. Qed.

Lemma safe_char_code_point (c : char) :
  safe_char (JStr [c]) = Returns [safe_code_point c].
Proof.
  unfold safe_char, safe_code_point, str_isalnum. cbn [forallb contains startswith].
  change (py " _-") with [32; 95; 45]. cbn [contains startswith].
  rewrite !andb_true_r, !orb_false_r, !orb_assoc.
  destruct (isalnum c || (c =? 32) || (c =? 95) || (c =? 45)); reflexivity.
Qed.

Lemma safe_title_loop (s : str) (acc : list str) :
  for_each (fun acc c => x ← safe_char c; Returns (acc ++ [x]))
    (List.map (fun c => JStr [c]) s) acc
  = Returns (acc ++ List.map (fun c => [safe_code_point c]) s).
Proof.
  revert acc. induction s as [|c s IH]; intros acc; cbn [List.map for_each].
  - now rewrite app_nil_r.
  - rewrite safe_char_code_point, !bind_Returns, IH. now rewrite <- app_assoc.
Qed.

Lemma concat_singletons {A B} (f : A -> B) (l : list A) :
  concat (List.map (fun x => [f x]) l) = List.map f l.
Proof. induction l as [|x l IH]; cbn; [reflexivity | now rewrite IH]. Qed.
End SafeTitle.

(** X16: the file name made of a str title has the length of the title and
    keeps each character that is alphanumeric, a blank, an underscore or a
    hyphen, turning every other one into an underscore: no other
    character reaches the file name. *)
Theorem safe_title_of_str `{Builtins} (s : str) :
  safe_title (JStr s) = Returns (List.map safe_code_point s)
  /\ Forall (fun c => isalnum c = true \/ c = 32 \/ c = 95 \/ c = 45)
       (List.map safe_code_point s).
Proof.
  split.
  - unfold safe_title. cbn [iterate].
    rewrite bind_Returns, safe_title_loop, bind_Returns. cbn [app].
    now rewrite concat_singletons.
  - apply Forall_forall. intros c Hc.
    apply list_elem_of_In, in_map_iff in Hc as (x & <- & _).
    unfold safe_code_point.
    destruct (isalnum x) eqn:Ha; cbn [orb]; [now left|].
    destruct (N.eqb_spec x 32) as [-> | _]; cbn [orb]; [now right; left|].
    destruct (N.eqb_spec x 95) as [-> | _]; cbn [orb]; [now right; right; left|].
    destruct (N.eqb_spec x 45) as [-> | _]; [now right; right; right|].
    right. right. now left.
Qed.

(** A title with a path separator, a colon and a dot. *)
Example safe_title_example :
  safe_title (H := example_runtime) (JStr (py "a/b: c.d")) = Returns (py "a_b_ c_d").
Proof. vm_compute. reflexivity. Qed.

(** X17: when the title of the latest session cannot be iterated (a null,
    as a record with ["name": null] and no title gives, a number, a
    boolean), the modes current and current-summary end with status 1 and
    write nothing, although the sessions were read. *)
Theorem latest_title_not_iterable `{Builtins} (L : Locale) (E : Env)
    (argv0 : str) (db_paths : list str) (w : fs) (latest : session) (e : str) :
  new_exporter E = Returns db_paths ->
  last (snd (read_chat_history L E db_paths w)) = Some latest ->
  iterate (title latest) = Raises e ->
  main L E [argv0; py "current"] w
    = (fst (read_chat_history L E db_paths w), 1%Z)
  /\ main L E [argv0; py "current-summary"] w
     = (fst (read_chat_history L E db_paths w), 1%Z)
  /\ written (fst (read_chat_history L E db_paths w)) = written w.
Proof.
  intros Hn Hlast Hit.
  assert (Hsafe : safe_title (title latest) = Raises e)
    by (unfold safe_title; now rewrite Hit).
  split; [|split].
  - unfold main. rewrite Hn. cbn [str_in existsb valid_modes].
    unfold export, export_current_chat.
    replace (str_in (py "current") valid_modes) with true by reflexivity.
    replace (str_eqb (py "current") (py "current")) with true by reflexivity.
    destruct (read_chat_history L E db_paths w) as [w1 sessions].
    cbn [snd fst] in *. now rewrite Hlast, Hsafe.
  - unfold main. rewrite Hn.
    unfold export, export_current_summary.
    replace (str_in (py "current-summary") valid_modes) with true by reflexivity.
    replace (str_eqb (py "current-summary") (py "current")) with false
      by reflexivity.
    replace (str_eqb (py "current-summary") (py "all")) with false by reflexivity.
    replace (str_eqb (py "current-summary") (py "current-summary")) with true
      by reflexivity.
    destruct (read_chat_history L E db_paths w) as [w1 sessions].
    cbn [snd fst] in *. now rewrite Hlast, Hsafe.
  - apply (fold_process_db_written L E db_paths (w, [])).
Qed.

(** The theorem at a database whose one record has a null name: the
    session is read, its title is None, and [current] fails where [all]
    writes its file. *)
Lemma latest_title_not_iterable_witness :
  List.map title
    (snd (read_chat_history (H := null_name_runtime) en null_name_candidate
            [py "state.vscdb"] empty_fs)) = [JNull]
  /\ snd (main (H := null_name_runtime) en null_name_candidate
            [py "chat_export.py"; py "current"] empty_fs) = 1%Z
  /\ snd (main (H := null_name_runtime) en null_name_candidate
            [py "chat_export.py"; py "all"] empty_fs) = 0%Z.
Proof.
  split; [vm_compute; reflexivity|]. split; [|vm_compute; reflexivity].
  destruct (latest_title_not_iterable (H := null_name_runtime) en
              null_name_candidate (py "chat_export.py") [py "state.vscdb"]
              empty_fs
              {| composerId := JStr []; version := JInt 0; title := JNull;
                 messages := [{| role := JInt 1; content := py "q" |}];
                 user_questions := 1; chat_count := 1 |}
              (py "TypeError")) as (Hcur & _).
  - reflexivity.
  - vm_compute. reflexivity.
  - reflexivity.
  - now rewrite Hcur.
Defined.

(** ** _find_db_paths *)

Section Finder.
Context (cwd : str) (S : Storage).

Lemma check_workspace_db_paths (st : fs * list str) (item : dir_entry) :
  snd (check_workspace_db cwd S st item)
  = snd st ++ (if has_chat_records item then [db_file S item] else []).
Proof.
  destruct st as [w paths]. unfold check_workspace_db, has_chat_records.
  destruct (entry_db item) as [[leftover| |[|n]]|]; cbn [snd];
    now rewrite ?app_nil_r.
Qed.

Lemma check_workspace_db_files (st : fs * list str) (item : dir_entry) :
  remove_calls (fst (check_workspace_db cwd S st item))
  = remove_calls (fst st)
    ++ (if has_db_file item then [temp_check_path cwd item] else [])
  /\ files (fst (check_workspace_db cwd S st item))
     = files (fst st)
       ∖ list_to_set (if has_db_file item then [temp_check_path cwd item] else [])
  /\ written (fst (check_workspace_db cwd S st item)) = written (fst st).
Proof.
  destruct st as [w paths]. unfold check_workspace_db, has_db_file.
  destruct (entry_db item) as [[[|]| |n]|]; cbn;
    rewrite ?app_nil_r; repeat split; set_solver.
Qed.

Lemma fold_check_paths (items : list dir_entry) (st : fs * list str) :
  snd (fold_left (check_workspace_db cwd S) items st)
  = snd st ++ List.map (db_file S) (List.filter has_chat_records items).
Proof.
  revert st. induction items as [|item items IH]; intros st; cbn [fold_left].
  - cbn. now rewrite app_nil_r.
  - rewrite IH, check_workspace_db_paths. cbn [List.filter].
    destruct (has_chat_records item); cbn [List.map];
      now rewrite <- app_assoc.
Qed.

Lemma fold_check_files (items : list dir_entry) (st : fs * list str) :
  remove_calls (fst (fold_left (check_workspace_db cwd S) items st))
  = remove_calls (fst st)
    ++ List.map (temp_check_path cwd) (List.filter has_db_file items)
  /\ files (fst (fold_left (check_workspace_db cwd S) items st))
     = files (fst st)
       ∖ list_to_set (List.map (temp_check_path cwd) (List.filter has_db_file items))
  /\ written (fst (fold_left (check_workspace_db cwd S) items st))
     = written (fst st).
Proof.
  revert st. induction items as [|item items IH]; intros st; cbn [fold_left].
  - cbn. rewrite app_nil_r. repeat split. set_solver.
  - destruct (IH (check_workspace_db cwd S st item)) as (Hc & Hf & Hw).
    destruct (check_workspace_db_files st item) as (Hc1 & Hf1 & Hw1).
    rewrite Hc, Hf, Hw, Hc1, Hf1, Hw1. cbn [List.filter].
    destruct (has_db_file item); cbn [List.map];
      rewrite <- ?app_assoc; repeat split; set_solver.
Qed.
End Finder.

(** X18: without a global database, the paths _find_db_paths keeps are
    the [state.vscdb] of the entries of the workspace storage that are
    directories, are not named images, and whose database gave at least
    one chat record, in the order of the listing; a database that cannot
    be copied or queried, or that holds no record, is left out without
    stopping the scan. *)
Theorem find_db_paths_result (cwd : str) (S : Storage) (w : fs)
    (entries : list dir_entry) :
  global_storage_exists S && global_db_exists S = false ->
  workspace_storage_exists S = true ->
  workspace_entries S = Returns entries ->
  snd (find_db_paths cwd S w)
  = List.map (db_file S)
      (List.filter (fun d => is_workspace_dir d && has_chat_records d) entries).
Proof.
  intros Hg Hws He. unfold find_db_paths. rewrite Hg, Hws, He. cbn [negb].
  rewrite fold_check_paths. cbn [snd app]. f_equal. clear He.
  induction entries as [|d entries IH]; [reflexivity|]. cbn [List.filter].
  destruct (is_workspace_dir d); cbn [andb List.filter]; [|exact IH].
  destruct (has_chat_records d); [now rewrite IH | exact IH].
Qed.

(** The theorem at the storage [five_entries]. *)
Lemma find_db_paths_result_witness :
  snd (find_db_paths (py "/tmp") five_entries empty_fs)
  = [py "/U/workspaceStorage/w3/state.vscdb"].
Proof.
  rewrite (find_db_paths_result (py "/tmp") five_entries empty_fs
             [{| entry_name := py "storage.json"; entry_is_dir := false;
                 entry_db := None |};
              {| entry_name := py "images"; entry_is_dir := true;
                 entry_db := Some (CheckRecords 3) |};
              {| entry_name := py "w1"; entry_is_dir := true; entry_db := None |};
              {| entry_name := py "w2"; entry_is_dir := true;
                 entry_db := Some (CheckRecords 0) |};
              {| entry_name := py "w3"; entry_is_dir := true;
                 entry_db := Some (CheckRecords 2) |}]); reflexivity.
Defined.

(** X19: whatever it finds, _find_db_paths writes no file and leaves no
    scratch copy: every scratch path it used was passed to [os.remove],
    once per database it copied, and the files afterwards are those from
    before less these paths. *)
Theorem find_db_paths_leaves_no_scratch (cwd : str) (S : Storage) (w : fs) :
  exists tmps : list str,
    remove_calls (fst (find_db_paths cwd S w)) = remove_calls w ++ tmps
    /\ files (fst (find_db_paths cwd S w)) = files w ∖ list_to_set tmps
    /\ written (fst (find_db_paths cwd S w)) = written w
    /\ Forall (fun p => p ∉ files (fst (find_db_paths cwd S w))) tmps
    /\ (global_storage_exists S && global_db_exists S = false ->
        workspace_storage_exists S = true ->
        forall entries, workspace_entries S = Returns entries ->
        tmps = List.map (temp_check_path cwd)
                 (List.filter has_db_file (List.filter is_workspace_dir entries))).
Proof.
  unfold find_db_paths.
  destruct (global_storage_exists S && global_db_exists S).
  { exists []. cbn. rewrite app_nil_r.
    repeat split; [set_solver | constructor | discriminate]. }
  destruct (workspace_storage_exists S); cbn [negb].
  2:{ exists []. cbn. rewrite app_nil_r.
      repeat split; [set_solver | constructor | discriminate]. }
  destruct (workspace_entries S) as [entries|e].
  2:{ exists []. cbn. rewrite app_nil_r.
      repeat split; [set_solver | constructor | discriminate]. }
  destruct (fold_check_files cwd S (List.filter is_workspace_dir entries) (w, []))
    as (Hc & Hf & Hw).
  eexists. split; [exact Hc|]. split; [exact Hf|]. split; [exact Hw|].
  split.
  - apply Forall_forall. intros p Hp. rewrite Hf. set_solver.
  - intros _ _ entries' [= <-]. reflexivity.
Qed.

(** ** _get_current_workspace *)



(** X20: with no workspace id in the environment, a storage.json that
    cannot be parsed, or that holds something other than an object, ends
    the lookup: the result is None and the directories are not looked at,
    whereas a broken [.cursor/config.json] is only passed over. *)
Theorem broken_storage_json_ends_lookup (K : Locator) (loaded : outcome json) :
  env_workspace_id K = None \/ env_workspace_id K = Some [] ->
  storage_json K = Some loaded ->
  (forall d, loaded <> Returns (JObj d)) ->
  get_current_workspace K = None.
Proof.
  intros Henv Hst Hbad. unfold get_current_workspace. rewrite Hst.
  assert (Hload : (storage_data ← loaded;
                   id ← load_get storage_data (py "lastActiveWorkspace");
                   Returns (if truthy id then Some id else None))
                  = Raises (match loaded with
                            | Raises e => e
                            | Returns _ => py "AttributeError"
                            end)).
  { destruct loaded as [[| | | | | | d]|e]; try reflexivity.
    now destruct (Hbad d). }
  rewrite Hload. destruct Henv as [-> | ->]; reflexivity.
Qed.

(** The theorem at [broken_storage], whose directories hold a [.git]. *)
Lemma broken_storage_json_ends_lookup_witness :
  get_current_workspace broken_storage = None
  /\ walk_up broken_storage (rev (cwd_components broken_storage)) <> None.
Proof.
  split; [|vm_compute; discriminate].
  apply (broken_storage_json_ends_lookup broken_storage
           (Raises (py "JSONDecodeError")));
    [now right | reflexivity | discriminate].
Defined.


